(** * Teacup firmware: the digital differential analyser (dda.c)

    A shallow embedding of [dda_create], [dda_start], [dda_step] and
    [update_position] of [dda.c], for the build selected by
    [config.ramps-v1.3.h]: [NEW_DDA_CALCULATIONS] and [ACCELERATION_RAMPING]
    are defined, [ACCELERATION_REPRAP], [ACCELERATION_TEMPORAL] and
    [DC_EXTRUDER] are not.  [E_ABSOLUTE] is kept as a switch of the
    configuration, since both of its settings matter below.

    C integers are integers of [Z] with the wrap-around of their width
    written out ([u32], [i32]).  The globals [startpoint],
    [current_position], [move_state] and [steptimeout] are the fields of one
    [machine] record which every function takes and returns; the calls into
    the pin and timer layer ([x_step], [setTimer], ...) are appended to the
    [outputs] log of that record, oldest first.  Serial debug output is left
    out. *)

From Stdlib Require Import ZArith List Bool Lia.
Import ListNotations.
Local Open Scope Z_scope.

(** ** Fixed-width arithmetic *)

(** Value of a [uint32_t] holding the low 32 bits of [x]. *)
Definition u32 (x : Z) : Z := x mod 2 ^ 32.

(** Value of an [int32_t] holding the low 32 bits of [x]. *)
Definition i32 (x : Z) : Z := (x + 2 ^ 31) mod 2 ^ 32 - 2 ^ 31.

Definition is_u32 (x : Z) : Prop := 0 <= x < 2 ^ 32.
Definition is_i32 (x : Z) : Prop := - 2 ^ 31 <= x < 2 ^ 31.

(** [labs] of the C library. *)
Definition labs (x : Z) : Z := Z.abs x.

(** ** Results of code that may divide by zero *)

(** The divisions of [dda_create], by what they divide by. *)
Inductive divisor : Type :=
| by_target_F        (* move_duration / target->F *)
| by_total_steps     (* limiting_total_clock_ticks / dda->total_steps *)
| by_distance        (* (1000 * ACCELERATION * total_steps) / distance *)
| by_int_sqrt        (* F_CPU / int_sqrt(...) *)
| by_c_limit         (* F_CPU / c_limit *)
| by_accel_steps.    (* x /= ((2000 * ACCELERATION >> 6) * total_steps) >> 6 *)

Inductive result (A : Type) : Type :=
| Ok (a : A)
| DivisionByZero (d : divisor).
Arguments Ok {A} a.
Arguments DivisionByZero {A} d.

Definition bind {A B : Type} (r : result A) (k : A -> result B) : result B :=
  match r with
  | Ok a => k a
  | DivisionByZero d => DivisionByZero d
  end.

Notation "'do' x '<-' e 'in' k" := (bind e (fun x => k))
  (at level 10, x name, e at level 100, k at level 200).

(** C's [/] on non-negative operands, undefined for a zero divisor. *)
Definition divide (d : divisor) (a b : Z) : result Z :=
  if b =? 0 then DivisionByZero d else Ok (a / b).

(** ** Data model (dda.h) *)

(** Modelled from the spec: dda.h, which declares [TARGET], is not among the
    sources.  The spec gives a position as four signed step counts and a
    feed rate; dda.c takes [labs] of the differences of the former and
    prints them as longs. *)
Record TARGET : Type := mkTARGET {
  tX : Z;   (* int32_t X *)
  tY : Z;   (* int32_t Y *)
  tZ : Z;   (* int32_t Z *)
  tE : Z;   (* int32_t E *)
  tF : Z    (* uint32_t F *)
}.

(** Modelled from the spec: the declaration of [DDA] in dda.h is not among
    the sources.  The fields are those dda.c reads and writes in the build
    at hand, unsigned 32-bit as the spec's move record has them; [allflags]
    is the union over the flag bits [nullmove], [live] and the four
    direction bits. *)
Record DDA : Type := mkDDA {
  endpoint : TARGET;
  nullmove : bool;
  live : bool;
  x_direction : bool;
  y_direction : bool;
  z_direction : bool;
  e_direction : bool;
  x_delta : Z;          (* uint32_t *)
  y_delta : Z;
  z_delta : Z;
  e_delta : Z;
  total_steps : Z;      (* uint32_t *)
  c0 : Z;               (* uint32_t, 24.8 fixed point *)
  c_min : Z;            (* uint32_t, 24.8 fixed point *)
  rampup_steps : Z;     (* uint32_t *)
  rampdown_steps : Z    (* uint32_t *)
}.

(** Modelled from the spec: the declaration of [MOVE_STATE] in dda.h is not
    among the sources.  The Bresenham counters are signed (dda.c tests them
    for [< 0]), the steps left and [step_no] unsigned, [c] unsigned and [n]
    signed as the casts on line 585 have them. *)
Record MOVE_STATE : Type := mkMOVE_STATE {
  x_counter : Z;        (* int32_t *)
  y_counter : Z;
  z_counter : Z;
  e_counter : Z;
  x_steps : Z;          (* uint32_t *)
  y_steps : Z;
  z_steps : Z;
  e_steps : Z;
  step_no : Z;          (* uint32_t *)
  c : Z;                (* uint32_t, 24.8 fixed point *)
  n : Z                 (* int32_t *)
}.

(** The calls dda.c makes into the pin and timer layer (pinio.h, timer.h),
    which the spec leaves to a hardware abstraction. *)
Module pinio.
Inductive call : Type :=
| power_on
| x_enable | y_enable | z_enable | e_enable
| z_disable
| x_direction (dir : bool)
| y_direction (dir : bool)
| z_direction (dir : bool)
| e_direction (dir : bool)
| x_step | y_step | z_step | e_step
| unstep
| setTimer (delay : Z)
| sei
| cli.

Definition call_eq_dec (a b : call) : {a = b} + {a <> b}.
Proof. repeat decide equality. Defined.
End pinio.

(** The globals of dda.c, and the log of calls made so far. *)
Record machine : Type := mkmachine {
  startpoint : TARGET;
  current_position : TARGET;
  move_state : MOVE_STATE;
  steptimeout : Z;              (* volatile uint8_t *)
  outputs : list pinio.call
}.

Definition emit (m : machine) (l : list pinio.call) : machine :=
  mkmachine (startpoint m) (current_position m) (move_state m)
            (steptimeout m) (outputs m ++ l).

Definition set_startpoint (m : machine) (t : TARGET) : machine :=
  mkmachine t (current_position m) (move_state m) (steptimeout m) (outputs m).

Definition set_current_position (m : machine) (t : TARGET) : machine :=
  mkmachine (startpoint m) t (move_state m) (steptimeout m) (outputs m).

Definition set_move_state (m : machine) (s : MOVE_STATE) : machine :=
  mkmachine (startpoint m) (current_position m) s (steptimeout m) (outputs m).

Definition set_steptimeout (m : machine) (v : Z) : machine :=
  mkmachine (startpoint m) (current_position m) (move_state m) v (outputs m).

Definition set_E (t : TARGET) (v : Z) : TARGET :=
  mkTARGET (tX t) (tY t) (tZ t) v (tF t).

Definition set_F (t : TARGET) (v : Z) : TARGET :=
  mkTARGET (tX t) (tY t) (tZ t) (tE t) v.

Definition set_live (dda : DDA) (b : bool) : DDA :=
  mkDDA (endpoint dda) (nullmove dda) b
        (x_direction dda) (y_direction dda) (z_direction dda) (e_direction dda)
        (x_delta dda) (y_delta dda) (z_delta dda) (e_delta dda)
        (total_steps dda) (c0 dda) (c_min dda)
        (rampup_steps dda) (rampdown_steps dda).

(** How often a call occurs in a log. *)
Definition count (e : pinio.call) (l : list pinio.call) : Z :=
  Z.of_nat (count_occ pinio.call_eq_dec l e).

(** The delays handed to [setTimer], oldest first. *)
Definition timer_writes (l : list pinio.call) : list Z :=
  flat_map (fun e => match e with pinio.setTimer v => [v] | _ => [] end) l.

(** ** Configuration *)

(** config.ramps-v1.3.h *)
Definition F_CPU : Z := 16000000.
Definition ACCELERATION : Z := 400.
(** dda.c, under NEW_DDA_CALCULATIONS: IOclocks per ms. *)
Definition TIME_SCALING : Z := F_CPU / 1000.

Inductive axis : Type := X | Y | Z_axis | E.

(** What dda.c takes from headers that are not part of the sources at hand:
    the macros [STEPS_TO_UM] (dda.h) and [MIN_CLOCKS_PER_STEP_*]
    (config_macros.h), and the helpers [approx_distance_2d],
    [approx_distance_3d] and [int_sqrt] (dda_util.h).  [E_ABSOLUTE] is the
    switch of config.ramps-v1.3.h, which leaves it undefined ([false]). *)
Record Config : Type := mkConfig {
  E_ABSOLUTE : bool;
  STEPS_TO_UM : axis -> Z -> Z;
  MIN_CLOCKS_PER_STEP : axis -> Z;
  approx_distance_2d : Z -> Z -> Z;
  approx_distance_3d : Z -> Z -> Z -> Z;
  int_sqrt : Z -> Z
}.

(** ** The move planner: [dda_create] *)

Section Planner.

Variable cfg : Config.

(** Lines 137-149: the distance travelled in X, Y and Z, in um. *)
Definition planar_distance (xd yd zd : Z) : Z :=
  if zd =? 0 then
    if xd =? 0 then u32 (STEPS_TO_UM cfg Y yd)
    else if yd =? 0 then u32 (STEPS_TO_UM cfg X xd)
    else u32 (approx_distance_2d cfg (STEPS_TO_UM cfg X xd)
                                     (STEPS_TO_UM cfg Y yd))
  else if (xd =? 0) && (yd =? 0) then u32 (STEPS_TO_UM cfg Z_axis zd)
  else u32 (approx_distance_3d cfg (STEPS_TO_UM cfg X xd)
                                   (STEPS_TO_UM cfg Y yd)
                                   (STEPS_TO_UM cfg Z_axis zd)).

(** Line 155: the test [distance < (e_feed << 3)], in [uint32_t]. *)
Definition e_feed_significant (distance e_feed : Z) : bool :=
  distance <? u32 (Z.shiftl e_feed 3).

(** Lines 153-157: the distance with the extruder feed taken in. *)
Definition distance_with_e_feed (distance e_feed : Z) : Z :=
  if e_feed_significant distance e_feed
  then u32 (approx_distance_2d cfg distance e_feed)
  else distance.

(** Lines 86-126: end point, deltas, directions and [total_steps].  The
    timing fields keep what the queue entry held before. *)
Definition dda_create_deltas (dda : DDA) (target : TARGET) (m : machine) : DDA :=
  let sp := startpoint m in
  let xd := u32 (labs (i32 (tX target - tX sp))) in
  let yd := u32 (labs (i32 (tY target - tY sp))) in
  let zd := u32 (labs (i32 (tZ target - tZ sp))) in
  let ed := u32 (labs (i32 (tE target - tE sp))) in
  let ts := xd in
  let ts := if yd >? ts then yd else ts in
  let ts := if zd >? ts then zd else ts in
  let ts := if ed >? ts then ed else ts in
  mkDDA target (ts =? 0) false
        (tX target >=? tX sp) (tY target >=? tY sp)
        (tZ target >=? tZ sp) (tE target >=? tE sp)
        xd yd zd ed ts
        (c0 dda) (c_min dda) (rampup_steps dda) (rampdown_steps dda).

(** Lines 238-253: the slowest of the vectored move and the four axes. *)
Definition limiting_total_clock_ticks (dda : DDA) (vectored : Z) : Z :=
  let lim := vectored in
  let mn := u32 (x_delta dda * MIN_CLOCKS_PER_STEP cfg X) in
  let lim := if mn >? lim then mn else lim in
  let mn := u32 (y_delta dda * MIN_CLOCKS_PER_STEP cfg Y) in
  let lim := if mn >? lim then mn else lim in
  let mn := u32 (z_delta dda * MIN_CLOCKS_PER_STEP cfg Z_axis) in
  let lim := if mn >? lim then mn else lim in
  let mn := u32 (e_delta dda * MIN_CLOCKS_PER_STEP cfg E) in
  if mn >? lim then mn else lim.

(** Line 369: the divisor of the ramp length. *)
Definition accel_steps_divisor (ts : Z) : Z :=
  Z.shiftr (u32 (Z.shiftr (u32 (2000 * ACCELERATION)) 6 * ts)) 6.

(** Lines 373-380: clipping of the ramp length. *)
Definition clip_ramps (dda : DDA) (x : Z) : DDA :=
  let ru := if u32 (2 * x) >? total_steps dda then total_steps dda / 2 else x in
  mkDDA (endpoint dda) (nullmove dda) (live dda)
        (x_direction dda) (y_direction dda) (z_direction dda) (e_direction dda)
        (x_delta dda) (y_delta dda) (z_delta dda) (e_delta dda)
        (total_steps dda) (c0 dda) (c_min dda)
        ru (u32 (total_steps dda - ru)).

Definition set_c0_c_min (dda : DDA) (v0 vmin : Z) : DDA :=
  mkDDA (endpoint dda) (nullmove dda) (live dda)
        (x_direction dda) (y_direction dda) (z_direction dda) (e_direction dda)
        (x_delta dda) (y_delta dda) (z_delta dda) (e_delta dda)
        (total_steps dda) v0 vmin
        (rampup_steps dda) (rampdown_steps dda).

(** Lines 128-383, the branch of a move with steps to make.  The quotient
    on line 262 is written with the floating constant [ACCELERATION] and so
    computed in floating point before [int_sqrt] takes it as a [uint32_t];
    the integer part of the exact quotient is taken here.  At a distance of
    zero the floating quotient is infinite and its conversion to [uint32_t]
    is undefined in C: the model stops there and reports it as
    [by_distance], with the divisions by zero. *)
Definition dda_create_timing (dda : DDA) (target : TARGET) (m : machine)
  : result (DDA * machine) :=
  let m := emit (set_steptimeout m 0)
                [pinio.power_on; pinio.x_enable; pinio.y_enable; pinio.e_enable] in
  let distance := planar_distance (x_delta dda) (y_delta dda) (z_delta dda) in
  let e_feed := u32 (STEPS_TO_UM cfg E (e_delta dda)) in
  let distance := distance_with_e_feed distance e_feed in
  let move_duration := u32 (distance * 60) in
  do q <- divide by_target_F move_duration (tF target) in
  let lim := limiting_total_clock_ticks dda (u32 (TIME_SCALING * q)) in
  do c_limit <- divide by_total_steps lim (total_steps dda) in
  do a <- divide by_distance (1000 * ACCELERATION * total_steps dda) distance in
  do t <- divide by_int_sqrt F_CPU (int_sqrt cfg (u32 a)) in
  let dda := set_c0_c_min dda (u32 (Z.shiftl t 8)) (u32 (Z.shiftl c_limit 8)) in
  do x <- divide by_c_limit F_CPU c_limit in
  let x := u32 (x * x) in
  let x := Z.shiftr x 12 in
  let x := u32 (x * distance) in
  do x <- divide by_accel_steps x (accel_steps_divisor (total_steps dda)) in
  Ok (clip_ramps dda x, m).

(** Lines 398-403: the next move starts where this one ends. *)
Definition next_startpoint (target : TARGET) : TARGET :=
  if E_ABSOLUTE cfg then target else set_E target 0.

Definition dda_create (dda : DDA) (target : TARGET) (m : machine)
  : result (DDA * machine) :=
  let dda := dda_create_deltas dda target m in
  do r <- (if total_steps dda =? 0 then Ok (dda, m)
           else dda_create_timing dda target m) in
  Ok (fst r, set_startpoint (snd r) (next_startpoint target)).

End Planner.

(** ** The activator, the step generator and the position tracker *)

(** Lines 457-461 and 625-628: the delay handed to [setTimer]. *)
Definition timer_delay (dda : DDA) (ms : MOVE_STATE) : Z :=
  if c_min dda >? c ms then Z.shiftr (c_min dda) 8 else Z.shiftr (c ms) 8.

(** [dda_start], lines 417-466. *)
Definition dda_start (dda : DDA) (m : machine) : DDA * machine :=
  if nullmove dda then
    (dda, set_current_position m
            (set_F (current_position m) (tF (endpoint dda))))
  else
    let m := set_steptimeout m 0 in
    let m := emit m (if z_delta dda =? 0 then [] else [pinio.z_enable]) in
    let m := emit m [pinio.x_direction (x_direction dda);
                     pinio.y_direction (y_direction dda);
                     pinio.z_direction (z_direction dda);
                     pinio.e_direction (e_direction dda)] in
    let k := i32 (u32 (- Z.shiftr (total_steps dda) 1)) in
    let ms := mkMOVE_STATE k k k k
                (x_delta dda) (y_delta dda) (z_delta dda) (e_delta dda)
                0 (c0 dda) (n (move_state m)) in
    let m := set_move_state m ms in
    let dda := set_live dda true in
    (dda, emit m [pinio.setTimer (timer_delay dda ms)]).

(** One axis of lines 483-524: the counter, the steps left, and whether a
    pulse was made. *)
Definition axis_step (delta ts counter steps : Z) : Z * Z * bool :=
  if steps =? 0 then (counter, steps, false)
  else
    let counter := i32 (counter - delta) in
    if counter <? 0 then (i32 (counter + ts), u32 (steps - 1), true)
    else (counter, steps, false).

(** Lines 571-581: [move_state.n] with its sign set for the ramp, and
    [recalc_speed]. *)
Definition ramp_direction (dda : DDA) (ms : MOVE_STATE) : Z * bool :=
  if step_no ms <? rampup_steps dda then
    ((if n ms <? 0 then i32 (-2 - n ms) else n ms), true)
  else if step_no ms >? rampdown_steps dda then
    ((if n ms >? 0 then i32 (-2 - n ms) else n ms), true)
  else (n ms, false).

(** Line 585: [(int32_t)c - ((int32_t)(c * 2) / (int32_t)n)], stored in a
    [uint32_t].  C's division truncates towards zero; [n] is never zero
    here, as it stays congruent to 1 modulo 4 ([ramp_step_parity]). *)
Definition ramp_period (c n : Z) : Z :=
  u32 (i32 c - Z.quot (i32 (u32 (c * 2))) n).

(** Lines 564-587: [n], [c] and [step_no] after the ramp computation. *)
Definition ramp_step (dda : DDA) (ms : MOVE_STATE) : Z * Z * Z :=
  let (nf, recalc_speed) := ramp_direction dda ms in
  let n' := if recalc_speed then i32 (nf + 4) else nf in
  let c' := if recalc_speed then ramp_period (c ms) n' else c ms in
  (n', c', u32 (step_no ms + 1)).

Definition pulse (stepped : bool) (e : pinio.call) : list pinio.call :=
  if stepped then [e] else [].

(** The calls of one tick, in the order of lines 483-636: the pulses,
    [sei], [z_disable] if the move is found done, [cli], the timer, and the
    end of the pulses. *)
Definition tick_calls (xp yp zp ep finished : bool) (delay : Z)
  : list pinio.call :=
  pulse xp pinio.x_step ++ pulse yp pinio.y_step ++
  pulse zp pinio.z_step ++ pulse ep pinio.e_step ++
  [pinio.sei] ++
  (if finished then [pinio.z_disable] else []) ++
  [pinio.cli; pinio.setTimer delay; pinio.unstep].

Section Stepper.

Variable cfg : Config.

(** Lines 603-617: what the tick that finds the move done does to
    [current_position]. *)
Definition finish_position (dda : DDA) (cp : TARGET) : TARGET :=
  set_F (if E_ABSOLUTE cfg then cp else set_E cp 0) (tF (endpoint dda)).

(** [dda_step], lines 480-637, with STEP_INTERRUPT_INTERRUPTIBLE set. *)
Definition dda_step (dda : DDA) (m : machine) : DDA * machine :=
  let ms := move_state m in
  let ts := total_steps dda in
  let '(xc, xs, xp) := axis_step (x_delta dda) ts (x_counter ms) (x_steps ms) in
  let '(yc, ys, yp) := axis_step (y_delta dda) ts (y_counter ms) (y_steps ms) in
  let '(zc, zs, zp) := axis_step (z_delta dda) ts (z_counter ms) (z_steps ms) in
  let '(ec, es, ep) := axis_step (e_delta dda) ts (e_counter ms) (e_steps ms) in
  let did_step := xp || yp || zp || ep in
  let '(n', c', step_no') := ramp_step dda ms in
  let ms' := mkMOVE_STATE xc yc zc ec xs ys zs es step_no' c' n' in
  let finished :=
    negb did_step && (xs =? 0) && (ys =? 0) && (zs =? 0) && (es =? 0) in
  let dda' := if finished then set_live dda false else dda in
  let cp := if finished then finish_position dda (current_position m)
            else current_position m in
  let calls := tick_calls xp yp zp ep finished (timer_delay dda' ms') in
  (dda',
   mkmachine (startpoint m) cp ms'
             (if did_step then 0 else steptimeout m)
             (outputs m ++ calls)).

(** [update_position], lines 640-669.  [dda] is [movebuffer[mb_tail]], the
    entry of the queue that was started last. *)
Definition update_position (dda : DDA) (m : machine) : machine :=
  if negb (live dda) then m
  else
    let ms := move_state m in
    let ep := endpoint dda in
    let along (dir : bool) (at_end steps : Z) : Z :=
      if dir then i32 (at_end - steps) else i32 (at_end + steps) in
    set_current_position m
      (mkTARGET (along (x_direction dda) (tX ep) (x_steps ms))
                (along (y_direction dda) (tY ep) (y_steps ms))
                (along (z_direction dda) (tZ ep) (z_steps ms))
                (if E_ABSOLUTE cfg
                 then along (e_direction dda) (tE ep) (e_steps ms)
                 else i32 (e_steps ms))
                (tF (current_position m))).

(** [k] timer interrupts in a row on the same queue entry. *)
Fixpoint ticks (k : nat) (dda : DDA) (m : machine) : DDA * machine :=
  match k with
  | O => (dda, m)
  | S k' => let (dda', m') := ticks k' dda m in dda_step dda' m'
  end.

End Stepper.

(** ** A sample configuration and a fresh machine *)

(** Modelled from the spec: dda.h ([STEPS_TO_UM]), config_macros.h
    ([MIN_CLOCKS_PER_STEP_*]) and dda_util.h ([approx_distance_2d],
    [approx_distance_3d], [int_sqrt]) are not among the sources.  The spec
    speaks of a 2D and a 3D approximation of the distance, of a square root,
    and of a step period per axis at its rated speed; this instance takes the
    integer part of the Euclidean distance and of the square root, 25 um per
    step on X and Y, 1 um on Z, 4 um on E, and the IOclocks per step of
    3.5 rev/s (X, Y) and 4 rev/s (Z, E) at 1600 steps per revolution.  It
    only serves to run the planner on concrete moves. *)
Definition sample_config : Config :=
  mkConfig false
    (fun a steps => match a with
                    | X | Y => steps * 25
                    | Z_axis => steps
                    | E => steps * 4
                    end)
    (fun a => match a with X | Y => 2857 | Z_axis | E => 2500 end)
    (fun a b => Z.sqrt (a * a + b * b))
    (fun a b d => Z.sqrt (a * a + b * b + d * d))
    Z.sqrt.

Definition origin (feed : Z) : TARGET := mkTARGET 0 0 0 0 feed.

(** The globals as [dda_init] leaves them after reset: everything in .bss is
    zero, [move_state.n] is 1 and [move_state.c] is 2500; the feed rates are
    set to SEARCH_FEEDRATE_Z, here [feed]. *)
Definition dda_init (feed : Z) : machine :=
  mkmachine (origin feed) (origin feed)
            (mkMOVE_STATE 0 0 0 0 0 0 0 0 0 2500 1) 0 [].

(** A queue entry that was never used. *)
Definition blank_dda : DDA :=
  mkDDA (origin 0) false false false false false false 0 0 0 0 0 0 0 0 0.

(** Two moves planned from the fresh machine, with what [dda_create] makes
    of them under [sample_config] (checked by [sample_plan] and
    [one_step_plan] below): 10 steps in X with 5 in Y and 3 in E, and a
    single step in X. *)
Definition sample_target : TARGET := mkTARGET 10 5 0 3 1500.

Definition sample_move : DDA :=
  mkDDA sample_target false false true true true true
        10 5 0 3 10 34419968 4505600 5 5.

Definition one_step_target : TARGET := mkTARGET 1 0 0 0 1500.

Definition one_step_move : DDA :=
  mkDDA one_step_target false false true true true true
        1 0 0 0 1 32507904 4096000 0 1.

(** The machine after planning a move to [target] from reset. *)
Definition planned (target : TARGET) : machine :=
  mkmachine (mkTARGET (tX target) (tY target) (tZ target) 0 (tF target))
            (origin 300) (mkMOVE_STATE 0 0 0 0 0 0 0 0 0 2500 1) 0
            [pinio.power_on; pinio.x_enable; pinio.y_enable; pinio.e_enable].

(** A planned move, started and stepped [k] times. *)
Definition started (dda : DDA) (target : TARGET) (k : nat) : DDA * machine :=
  ticks sample_config k (fst (dda_start dda (planned target)))
                        (snd (dda_start dda (planned target))).

(** ** Vocabulary of the statements *)

(** Whether a result is a value, and whether it is a division by zero at a
    given divisor. *)
Definition completed {A : Type} (r : result A) : bool :=
  match r with Ok _ => true | DivisionByZero _ => false end.

Definition divisor_eqb (a b : divisor) : bool :=
  match a, b with
  | by_target_F, by_target_F
  | by_total_steps, by_total_steps
  | by_distance, by_distance
  | by_int_sqrt, by_int_sqrt
  | by_c_limit, by_c_limit
  | by_accel_steps, by_accel_steps => true
  | _, _ => false
  end.

Definition divides_by_zero {A : Type} (d : divisor) (r : result A) : bool :=
  match r with Ok _ => false | DivisionByZero d' => divisor_eqb d d' end.

(** A record as the planner makes them for a move with steps: no delta goes
    beyond [total_steps], one of them reaches it, and the counters of
    [dda_step] have room in 32 bits. *)
Definition has_steps (dda : DDA) : Prop :=
  nullmove dda = false /\
  0 < total_steps dda < 2 ^ 30 /\
  0 <= x_delta dda <= total_steps dda /\
  0 <= y_delta dda <= total_steps dda /\
  0 <= z_delta dda <= total_steps dda /\
  0 <= e_delta dda <= total_steps dda /\
  (x_delta dda = total_steps dda \/ y_delta dda = total_steps dda \/
   z_delta dda = total_steps dda \/ e_delta dda = total_steps dda).

(** The state of one axis after [k] ticks of a move: the steps left, and,
    while there are some, the Bresenham counter. *)
Definition axis_inv (delta ts k counter steps : Z) : Prop :=
  0 <= steps <= delta /\
  (0 < steps ->
   counter = - (ts / 2) - k * delta + (delta - steps) * ts /\
   - (ts / 2) <= counter < ts) /\
  (delta = ts -> steps = ts - k).

(** All step pulses in a log. *)
Definition pulses (l : list pinio.call) : Z :=
  count pinio.x_step l + count pinio.y_step l +
  count pinio.z_step l + count pinio.e_step l.

(** The record [d] and the machine [m], [k] ticks after the record [dda] was
    started on the machine [m0]: the record is live, the positions are as
    they were, each axis is where [axis_inv] says, and each axis has made as
    many pulses as its step count has gone down. *)
Definition stepping (dda : DDA) (m0 : machine) (k : Z)
           (d : DDA) (m : machine) : Prop :=
  let ms := move_state m in
  let ts := total_steps dda in
  d = set_live dda true /\
  current_position m = current_position m0 /\
  startpoint m = startpoint m0 /\
  axis_inv (x_delta dda) ts k (x_counter ms) (x_steps ms) /\
  axis_inv (y_delta dda) ts k (y_counter ms) (y_steps ms) /\
  axis_inv (z_delta dda) ts k (z_counter ms) (z_steps ms) /\
  axis_inv (e_delta dda) ts k (e_counter ms) (e_steps ms) /\
  count pinio.x_step (outputs m)
    = count pinio.x_step (outputs m0) + (x_delta dda - x_steps ms) /\
  count pinio.y_step (outputs m)
    = count pinio.y_step (outputs m0) + (y_delta dda - y_steps ms) /\
  count pinio.z_step (outputs m)
    = count pinio.z_step (outputs m0) + (z_delta dda - z_steps ms) /\
  count pinio.e_step (outputs m)
    = count pinio.e_step (outputs m0) + (e_delta dda - e_steps ms).

(** A target whose fields fit their C types. *)
Definition TARGET_in_range (t : TARGET) : Prop :=
  is_i32 (tX t) /\ is_i32 (tY t) /\ is_i32 (tZ t) /\ is_i32 (tE t) /\
  is_u32 (tF t).

(** ** Vocabulary of the further properties *)

(** The delta of an axis in a record. *)
Definition delta_of (a : axis) (dda : DDA) : Z :=
  match a with
  | X => x_delta dda
  | Y => y_delta dda
  | Z_axis => z_delta dda
  | E => e_delta dda
  end.

(** The position [steps] away from [from], upwards if the direction flag is
    set and downwards if not. *)
Definition moved (dir : bool) (from steps : Z) : Z :=
  if dir then from + steps else from - steps.

(** A start and a target whose differences fit an [int32_t], so that the
    subtractions on lines 95-98 do not overflow. *)
Definition displacement_in_range (sp target : TARGET) : Prop :=
  is_i32 (tX target - tX sp) /\ is_i32 (tY target - tY sp) /\
  is_i32 (tZ target - tZ sp) /\ is_i32 (tE target - tE sp).

(** The local variables of the timing branch of [dda_create], as functions
    of a record that has its deltas and [total_steps], and of the target.
    Where a divisor is zero C leaves the quotient undefined and [dda_create]
    above stops; the quotients here are those it takes otherwise. *)
Section PlannerLocals.

Variable cfg : Config.

(** [distance] as it stands after line 157. *)
Definition move_distance (dda : DDA) : Z :=
  distance_with_e_feed cfg
    (planar_distance cfg (x_delta dda) (y_delta dda) (z_delta dda))
    (u32 (STEPS_TO_UM cfg E (e_delta dda))).

(** [c_limit] as line 254 sets it, from [move_duration] of line 187 and
    [limiting_total_clock_ticks] of lines 225-253. *)
Definition c_limit (dda : DDA) (target : TARGET) : Z :=
  let move_duration := u32 (move_distance dda * 60) in
  limiting_total_clock_ticks cfg dda
    (u32 (TIME_SCALING * (move_duration / tF target)))
  / total_steps dda.

(** [x] as it stands after line 369: the length of the ramp before
    clipping, which line 373 stores in [rampup_steps]. *)
Definition ramp_length (dda : DDA) (target : TARGET) : Z :=
  let x := F_CPU / c_limit dda target in
  let x := u32 (x * x) in
  let x := Z.shiftr x 12 in
  let x := u32 (x * move_distance dda) in
  x / accel_steps_divisor (total_steps dda).

End PlannerLocals.

(** The machines that dda.c reaches from reset: [dda_init], and then any of
    its functions on any queue entry and any target. *)
Inductive reachable (cfg : Config) : machine -> Prop :=
| reach_init (feed : Z) : reachable cfg (dda_init feed)
| reach_create (q : DDA) (target : TARGET) (m : machine)
               (dda : DDA) (m' : machine) :
    reachable cfg m ->
    dda_create cfg q target m = Ok (dda, m') ->
    reachable cfg m'
| reach_start (dda : DDA) (m : machine) :
    reachable cfg m -> reachable cfg (snd (dda_start dda m))
| reach_step (dda : DDA) (m : machine) :
    reachable cfg m -> reachable cfg (snd (dda_step cfg dda m))
| reach_update (dda : DDA) (m : machine) :
    reachable cfg m -> reachable cfg (update_position cfg dda m).

(** Lines 536-559, the block which [dda_step] has in place of the ramp
    computation when ACCELERATION_REPRAP is defined: from [dda->accel],
    [dda->c], [dda->end_c] and [dda->n] to the new [dda->c] and [dda->n].
    The declarations of these fields are in dda.h, which is not among the
    sources: [c] and [end_c] are taken as [uint32_t], the type of [new_c] on
    lines 538 and 547, and [n] as [int32_t], signed as the tests on lines 537
    and 546 need it; the quotients are then taken in [uint32_t], as C does
    for mixed operands. *)
Definition taper_period (accel : bool) (c end_c n : Z) : Z * Z :=
  if accel then
    if (c >? end_c) && (n >? 0) then
      let new_c := u32 (c - u32 (c * 2) / u32 n) in
      if (new_c <=? c) && (new_c >? end_c) then (new_c, i32 (n + 4))
      else (end_c, n)
    else if (c <? end_c) && (n <? 0) then
      let new_c := u32 (c + u32 (c * 2) / u32 (i32 (- n))) in
      if (new_c >=? c) && (new_c <? end_c) then (new_c, i32 (n + 4))
      else (end_c, n)
    else if negb (c =? end_c) then (end_c, n)
    else (c, n)
  else (c, n).

(** Where the Bresenham counter keeps an axis after [k] ticks: the pulses
    made, [delta - steps], are never behind the line [k * delta / ts] and
    less than a step and a half ahead of it. *)
Definition axis_track (delta ts k steps : Z) : Prop :=
  k * delta <= ts * (delta - steps) /\
  ts * (delta - steps) < k * delta + ts + ts / 2.

(** The ramp state [k] ticks into a move that was started with
    [move_state.n = n0]: [step_no] has counted the ticks, [n] is congruent
    to 1 modulo 4 and within [4 * k] of [n0]; on a move with ramps it is
    positive until the first tick of the way down and negative from then
    on, by enough for the ticks that are left. *)
Definition ramp_inv (dda : DDA) (n0 k : Z) (ms : MOVE_STATE) : Prop :=
  step_no ms = k /\
  n ms mod 4 = 1 /\
  Z.abs (n ms) <= Z.abs n0 + 4 * k /\
  (0 < rampup_steps dda ->
   (0 < k <= rampdown_steps dda + 1 ->
    1 + 4 * Z.min k (rampup_steps dda) <= n ms) /\
   (rampdown_steps dda + 1 < k ->
    n ms <= -3 - 4 * (total_steps dda + 1 - k))).

(** A record whose ramps are as the planner clips them. *)
Definition ramps_fit (dda : DDA) : Prop :=
  0 <= rampup_steps dda /\
  2 * rampup_steps dda <= total_steps dda /\
  rampdown_steps dda = total_steps dda - rampup_steps dda.

(** ** Proof steps that recur *)

(** The booleans that decide which calls a tick makes, turned into
    variables, and the case analysis on them. *)
Ltac abstract_flags :=
  repeat match goal with
         | |- context [pulse ?b _] =>
             tryif is_var b then fail
             else (let v := fresh "stepped" in generalize b; intros v)
         | |- context [if ?b then [pinio.z_disable] else _] =>
             tryif is_var b then fail
             else (let v := fresh "finished" in generalize b; intros v)
         end.

Ltac destruct_flags :=
  repeat match goal with
         | b : bool |- _ => destruct b
         end.

(** Closed arithmetic facts and equations, by evaluation. *)
Ltac by_computation :=
  vm_compute; repeat split; try reflexivity; try (intro; discriminate).

(** * Properties *)

(** ** Fixed-width arithmetic *)

Lemma u32_range (x : Z) : 0 <= u32 x < 2 ^ 32.
Proof. unfold u32. apply Z.mod_pos_bound. lia. Qed.

Lemma u32_small (x : Z) : 0 <= x < 2 ^ 32 -> u32 x = x.
Proof. intros H. unfold u32. apply Z.mod_small. exact H. Qed.

Lemma i32_range (x : Z) : - 2 ^ 31 <= i32 x < 2 ^ 31.
Proof.
  unfold i32.
  assert (H := Z.mod_pos_bound (x + 2 ^ 31) (2 ^ 32)). lia.
Qed.

Lemma i32_small (x : Z) : - 2 ^ 31 <= x < 2 ^ 31 -> i32 x = x.
Proof. intros H. unfold i32. rewrite Z.mod_small; lia. Qed.

Lemma i32_mod4 (x : Z) : i32 x mod 4 = x mod 4.
Proof.
  unfold i32.
  assert (H := Z.div_mod (x + 2 ^ 31) (2 ^ 32)).
  replace ((x + 2 ^ 31) mod 2 ^ 32 - 2 ^ 31)
    with (x + (- 2 ^ 30 * ((x + 2 ^ 31) / 2 ^ 32)) * 4) by lia.
  apply Z.mod_add. lia.
Qed.

Lemma labs_i32_range (x : Z) : 0 <= labs (i32 x) <= 2 ^ 31.
Proof. unfold labs. assert (H := i32_range x). lia. Qed.

Lemma u32_labs_i32 (x : Z) : u32 (labs (i32 x)) = labs (i32 x).
Proof. apply u32_small. assert (H := labs_i32_range x). lia. Qed.

Lemma shiftl_3 (x : Z) : Z.shiftl x 3 = 8 * x.
Proof. rewrite Z.shiftl_mul_pow2 by lia. lia. Qed.

Lemma shiftr_1 (x : Z) : Z.shiftr x 1 = x / 2.
Proof. rewrite Z.shiftr_div_pow2 by lia. reflexivity. Qed.

Lemma shiftr_8_monotone (a b : Z) : a <= b -> Z.shiftr a 8 <= Z.shiftr b 8.
Proof.
  intros H. rewrite !Z.shiftr_div_pow2 by lia.
  apply Z.div_le_mono; lia.
Qed.

(** ** The planner *)

Section PlannerFacts.

Variable cfg : Config.

Lemma dda_create_deltas_total_steps (q : DDA) (target : TARGET) (m : machine) :
  let dda := dda_create_deltas q target m in
  total_steps dda =
    Z.max (Z.max (Z.max (x_delta dda) (y_delta dda)) (z_delta dda)) (e_delta dda).
Proof.
  unfold dda_create_deltas. cbv zeta.
  cbn [total_steps x_delta y_delta z_delta e_delta].
  repeat match goal with
         | |- context [?a >? ?b] =>
             lazymatch b with
             | context [if _ then _ else _] => fail
             | _ => destruct (Z.gtb_spec a b)
             end
         end; lia.
Qed.

Lemma dda_create_deltas_range (q : DDA) (target : TARGET) (m : machine) :
  let dda := dda_create_deltas q target m in
  0 <= x_delta dda <= 2 ^ 31 /\ 0 <= y_delta dda <= 2 ^ 31 /\
  0 <= z_delta dda <= 2 ^ 31 /\ 0 <= e_delta dda <= 2 ^ 31.
Proof.
  unfold dda_create_deltas. cbv zeta.
  cbn [x_delta y_delta z_delta e_delta].
  rewrite !u32_labs_i32. repeat split; apply labs_i32_range.
Qed.

(** The timing branch and the clipping of the ramps leave the geometry of
    the record alone. *)
Lemma dda_create_timing_geometry (dda : DDA) (target : TARGET) (m : machine)
      (dda' : DDA) (m' : machine) :
  dda_create_timing cfg dda target m = Ok (dda', m') ->
  endpoint dda' = endpoint dda /\ nullmove dda' = nullmove dda /\
  live dda' = live dda /\
  x_direction dda' = x_direction dda /\ y_direction dda' = y_direction dda /\
  z_direction dda' = z_direction dda /\ e_direction dda' = e_direction dda /\
  x_delta dda' = x_delta dda /\ y_delta dda' = y_delta dda /\
  z_delta dda' = z_delta dda /\ e_delta dda' = e_delta dda /\
  total_steps dda' = total_steps dda.
Proof.
  unfold dda_create_timing, divide, bind.
  repeat match goal with
         | |- context [if ?b =? 0 then DivisionByZero _ else _] =>
             destruct (b =? 0); [discriminate|]
         end.
  intros H. injection H as <- _. cbn. repeat split.
Qed.

(** What [dda_create] hands back, case by case. *)
Lemma dda_create_inv (q : DDA) (target : TARGET) (m : machine)
      (dda : DDA) (m' : machine) :
  dda_create cfg q target m = Ok (dda, m') ->
  let g := dda_create_deltas q target m in
  startpoint m' = next_startpoint cfg target /\
  ((total_steps g = 0 /\ dda = g /\
    m' = set_startpoint m (next_startpoint cfg target)) \/
   (total_steps g <> 0 /\
    exists m1, dda_create_timing cfg g target m = Ok (dda, m1) /\
               m' = set_startpoint m1 (next_startpoint cfg target))).
Proof.
  unfold dda_create. cbv zeta.
  destruct (Z.eqb_spec (total_steps (dda_create_deltas q target m)) 0) as [H0|H0].
  - cbn. intros H. injection H as <- <-. split; [reflexivity|]. left. auto.
  - destruct (dda_create_timing cfg _ target m) as [[d1 m1]|d] eqn:Ht;
      cbn; [|discriminate].
    intros H. injection H as <- <-. split; [reflexivity|].
    right. split; [assumption|]. exists m1. auto.
Qed.

Lemma dda_create_geometry (q : DDA) (target : TARGET) (m : machine)
      (dda : DDA) (m' : machine) :
  dda_create cfg q target m = Ok (dda, m') ->
  let g := dda_create_deltas q target m in
  endpoint dda = target /\ nullmove dda = (total_steps g =? 0) /\
  live dda = false /\
  x_direction dda = x_direction g /\ y_direction dda = y_direction g /\
  z_direction dda = z_direction g /\ e_direction dda = e_direction g /\
  x_delta dda = x_delta g /\ y_delta dda = y_delta g /\
  z_delta dda = z_delta g /\ e_delta dda = e_delta g /\
  total_steps dda = total_steps g.
Proof.
  intros H. apply dda_create_inv in H. cbv zeta in *.
  assert (He : endpoint (dda_create_deltas q target m) = target)
    by reflexivity.
  assert (Hn : nullmove (dda_create_deltas q target m)
               = (total_steps (dda_create_deltas q target m) =? 0))
    by reflexivity.
  assert (Hl : live (dda_create_deltas q target m) = false) by reflexivity.
  destruct H as [_ [(H0 & -> & _) | (H0 & m1 & Ht & _)]].
  - repeat split; assumption.
  - apply dda_create_timing_geometry in Ht.
    destruct Ht as (? & ? & ? & ? & ? & ? & ? & ? & ? & ? & ? & ?).
    repeat split; congruence.
Qed.

End PlannerFacts.

(** ** Claims about the planner *)

Section PlannerClaims.

Variable cfg : Config.


(** C7.  A target that equals [startpoint] on X, Y, Z and E is planned
    without a division, as a [nullmove] that is not live, and planning makes
    no call to the pin or timer layer.  Starting that record, in whatever
    state the machine is by then, sets [current_position.F] to the feed rate
    of the target and nothing else: the record stays as it is (not live), no
    call is made (no timer, no direction, no enable, no pulse), and
    [startpoint], [move_state] and [steptimeout] are unchanged. *)
Theorem nullmove_only_sets_feedrate (q : DDA) (target : TARGET) (m : machine) :
  tX target = tX (startpoint m) ->
  tY target = tY (startpoint m) ->
  tZ target = tZ (startpoint m) ->
  tE target = tE (startpoint m) ->
  exists dda m',
    dda_create cfg q target m = Ok (dda, m') /\
    nullmove dda = true /\ live dda = false /\
    outputs m' = outputs m /\
    current_position m' = current_position m /\
    move_state m' = move_state m /\
    forall m1 : machine,
      fst (dda_start dda m1) = dda /\
      outputs (snd (dda_start dda m1)) = outputs m1 /\
      current_position (snd (dda_start dda m1))
        = set_F (current_position m1) (tF target) /\
      startpoint (snd (dda_start dda m1)) = startpoint m1 /\
      move_state (snd (dda_start dda m1)) = move_state m1 /\
      steptimeout (snd (dda_start dda m1)) = steptimeout m1.
Proof.
  intros HX HY HZ HE.
  assert (Hts : total_steps (dda_create_deltas q target m) = 0).
  { unfold dda_create_deltas. cbv zeta. cbn [total_steps].
    rewrite HX, HY, HZ, HE, !Z.sub_diag. reflexivity. }
  exists (dda_create_deltas q target m),
         (set_startpoint m (next_startpoint cfg target)).
  assert (Hn : nullmove (dda_create_deltas q target m) = true).
  { change (nullmove (dda_create_deltas q target m))
      with (total_steps (dda_create_deltas q target m) =? 0).
    rewrite Hts. reflexivity. }
  split.
  { unfold dda_create. cbv zeta. rewrite Hts. reflexivity. }
  split; [exact Hn|].
  repeat (split; [reflexivity|]).
  intros m1. unfold dda_start. rewrite Hn. cbn. repeat split.
Qed.

(** C6, as the code has it.  With an extruder feed below 2^29 um, so that
    [e_feed << 3] stays within 32 bits, the extruder feed is taken into the
    distance exactly when eight times the feed is strictly more than the
    distance; when it is equal or less, the distance stays as it is. *)
Theorem e_feed_folded_when_above_eighth (distance e_feed : Z) :
  0 <= e_feed < 2 ^ 29 ->
  e_feed_significant distance e_feed = (distance <? 8 * e_feed) /\
  (distance < 8 * e_feed ->
   distance_with_e_feed cfg distance e_feed
     = u32 (approx_distance_2d cfg distance e_feed)) /\
  (8 * e_feed <= distance ->
   distance_with_e_feed cfg distance e_feed = distance).
Proof.
  intros He.
  assert (Hs : e_feed_significant distance e_feed = (distance <? 8 * e_feed)).
  { unfold e_feed_significant. rewrite shiftl_3, u32_small by lia.
    reflexivity. }
  split; [exact Hs|].
  unfold distance_with_e_feed. rewrite Hs.
  split; intros H.
  - apply Z.ltb_lt in H. rewrite H. reflexivity.
  - apply Z.ltb_ge in H. rewrite H. reflexivity.
Qed.

End PlannerClaims.

(** ** Ramp lengths and divisions *)

Lemma accel_steps_divisor_small (ts : Z) :
  0 < ts -> 12500 * ts < 2 ^ 32 ->
  accel_steps_divisor ts = 12500 * ts / 64 /\ 195 <= accel_steps_divisor ts.
Proof.
  intros H0 H1. unfold accel_steps_divisor.
  change (Z.shiftr (u32 (2000 * ACCELERATION)) 6) with 12500.
  rewrite u32_small by lia.
  rewrite Z.shiftr_div_pow2 by lia. change (2 ^ 6) with 64.
  split; [reflexivity|].
  apply Z.div_le_lower_bound; lia.
Qed.

(** Lines 373-380 on a ramp length that fits 31 bits. *)
Lemma clip_ramps_spec (dda : DDA) (x : Z) :
  0 <= x < 2 ^ 31 -> 0 <= total_steps dda < 2 ^ 32 ->
  let dda' := clip_ramps dda x in
  rampup_steps dda' = (if 2 * x >? total_steps dda
                       then total_steps dda / 2 else x) /\
  0 <= rampup_steps dda' /\
  2 * rampup_steps dda' <= total_steps dda /\
  rampdown_steps dda' = total_steps dda - rampup_steps dda' /\
  total_steps dda' = total_steps dda.
Proof.
  intros Hx Hts. unfold clip_ramps. cbv zeta.
  cbn [rampup_steps rampdown_steps total_steps].
  rewrite (u32_small (2 * x)) by lia.
  destruct (Z.gtb_spec (2 * x) (total_steps dda)) as [Hgt|Hle].
  - assert (H2 : 0 <= total_steps dda / 2 /\
                 2 * (total_steps dda / 2) <= total_steps dda)
      by (split; [apply Z.div_pos; lia | apply Z.mul_div_le; lia]).
    rewrite u32_small by lia. repeat split; lia.
  - rewrite u32_small by lia. repeat split; lia.
Qed.

Section RampClaims.

Variable cfg : Config.

(** The ramp fields which the timing branch leaves: the clipping applied to
    a quotient of a 32-bit value by the divisor of line 369. *)
Lemma dda_create_timing_ramps (dda : DDA) (target : TARGET) (m : machine)
      (dda' : DDA) (m' : machine) :
  dda_create_timing cfg dda target m = Ok (dda', m') ->
  exists (xb : Z) (d0 : DDA) (dv : Z),
    0 <= xb < 2 ^ 32 /\
    (dv = accel_steps_divisor (total_steps dda) /\ 0 < dv) /\
    total_steps d0 = total_steps dda /\
    dda' = clip_ramps d0 (xb / dv).
Proof.
  unfold dda_create_timing, divide, bind.
  repeat match goal with
         | |- context [if ?b =? 0 then DivisionByZero _ else _] =>
             destruct (Z.eqb_spec b 0); [discriminate|]
         end.
  intros H.
  assert (Hd := f_equal (fun r => match r with
                                  | Ok (d, _) => d
                                  | DivisionByZero _ => dda'
                                  end) H).
  cbv beta iota in Hd. rewrite <- Hd.
  eexists _, _, _. split; [|split; [|split; [|reflexivity]]].
  - apply u32_range.
  - split; [reflexivity|].
    assert (Hnn : 0 <= accel_steps_divisor (total_steps dda)).
    { unfold accel_steps_divisor. apply Z.shiftr_nonneg. apply u32_range. }
    change (0 < accel_steps_divisor (total_steps dda)).
    match goal with
    | Hne : accel_steps_divisor _ <> 0 |- _ =>
        change (accel_steps_divisor (total_steps dda) <> 0) in Hne; lia
    end.
  - reflexivity.
Qed.

(** The planner's [c_min] is a whole number of ticks in fixed point. *)
Lemma dda_create_c_min_whole_ticks (q : DDA) (target : TARGET) (m : machine)
      (dda : DDA) (m' : machine) :
  dda_create cfg q target m = Ok (dda, m') ->
  nullmove dda = false ->
  c_min dda mod 256 = 0.
Proof.
  intros Hc Hn.
  pose proof (dda_create_geometry cfg _ _ _ _ _ Hc) as Hg. cbv zeta in Hg.
  destruct Hg as (_ & Hnull & _).
  apply dda_create_inv in Hc. cbv zeta in Hc.
  destruct Hc as [_ [(H0 & _) | (_ & m1 & Ht & _)]].
  { rewrite H0, Hn in Hnull. discriminate. }
  revert Ht. unfold dda_create_timing, divide, bind.
  repeat match goal with
         | |- context [if ?b =? 0 then DivisionByZero _ else _] =>
             destruct (b =? 0); [discriminate|]
         end.
  intros H.
  assert (Hd := f_equal (fun r => match r with
                                  | Ok (d, _) => c_min d
                                  | DivisionByZero _ => 0
                                  end) H).
  cbv beta iota in Hd. cbn [c_min clip_ramps set_c0_c_min] in Hd.
  rewrite <- Hd.
  unfold u32. rewrite Z.mod_mod_divide by (exists (2 ^ 24); reflexivity).
  rewrite Z.shiftl_mul_pow2 by lia. apply Z.mod_mul. lia.
Qed.

(** The local variables read the deltas and [total_steps] of the record
    and nothing else. *)
Lemma locals_of_geometry (d d' : DDA) (target : TARGET) :
  x_delta d' = x_delta d -> y_delta d' = y_delta d ->
  z_delta d' = z_delta d -> e_delta d' = e_delta d ->
  total_steps d' = total_steps d ->
  move_distance cfg d' = move_distance cfg d /\
  c_limit cfg d' target = c_limit cfg d target /\
  ramp_length cfg d' target = ramp_length cfg d target.
Proof.
  intros Hx Hy Hz He Hts.
  assert (Hd : move_distance cfg d' = move_distance cfg d).
  { unfold move_distance. rewrite Hx, Hy, Hz, He. reflexivity. }
  assert (Hc : c_limit cfg d' target = c_limit cfg d target).
  { unfold c_limit, limiting_total_clock_ticks. cbv zeta.
    rewrite Hd, Hx, Hy, Hz, He, Hts. reflexivity. }
  split; [exact Hd|]. split; [exact Hc|].
  unfold ramp_length. cbv zeta. rewrite Hc, Hd, Hts. reflexivity.
Qed.

(** The timing branch stores its local variables: [c_limit << 8] in
    [c_min], and the ramp length of line 369, clipped, in the ramp fields.
    None of the divisors it met was zero. *)
Lemma dda_create_timing_locals (dda : DDA) (target : TARGET) (m : machine)
      (dda' : DDA) (m' : machine) :
  dda_create_timing cfg dda target m = Ok (dda', m') ->
  (tF target <> 0 /\ total_steps dda <> 0 /\ c_limit cfg dda target <> 0 /\
   accel_steps_divisor (total_steps dda) <> 0) /\
  c_min dda' = u32 (Z.shiftl (c_limit cfg dda target) 8) /\
  rampup_steps dda'
  = rampup_steps (clip_ramps dda (ramp_length cfg dda target)) /\
  rampdown_steps dda'
  = rampdown_steps (clip_ramps dda (ramp_length cfg dda target)).
Proof.
  unfold dda_create_timing, divide, bind.
  repeat match goal with
         | |- context [if ?b =? 0 then DivisionByZero _ else _] =>
             destruct (Z.eqb_spec b 0); [discriminate|]
         end.
  intros H.
  assert (Hd := f_equal (fun r => match r with
                                  | Ok (d, _) => d
                                  | DivisionByZero _ => dda'
                                  end) H).
  cbv beta iota in Hd. rewrite <- Hd.
  split; [repeat split; assumption|].
  split; [reflexivity|]. split; reflexivity.
Qed.

(** What line 369 makes of a ramp: a 32-bit value, below 2^31 when
    [total_steps] keeps the product of the divisor within 32 bits. *)
Lemma ramp_length_range (dda : DDA) (target : TARGET) :
  accel_steps_divisor (total_steps dda) <> 0 ->
  0 <= ramp_length cfg dda target < 2 ^ 32 /\
  (0 < total_steps dda -> 12500 * total_steps dda < 2 ^ 32 ->
   ramp_length cfg dda target < 2 ^ 31).
Proof.
  intros Hne. unfold ramp_length. cbv zeta.
  set (xb := u32 (_ * move_distance cfg dda)).
  assert (Hxb : 0 <= xb < 2 ^ 32) by apply u32_range.
  assert (Hnn : 0 <= accel_steps_divisor (total_steps dda)).
  { unfold accel_steps_divisor. apply Z.shiftr_nonneg. apply u32_range. }
  set (dv := accel_steps_divisor (total_steps dda)) in *.
  assert (Hx : 0 <= xb / dv <= xb).
  { split; [apply Z.div_pos; lia|].
    apply Z.div_le_upper_bound; nia. }
  split; [lia|].
  intros Hpos Hts.
  destruct (accel_steps_divisor_small (total_steps dda) Hpos Hts) as [_ Hdiv].
  fold dv in Hdiv.
  apply Z.div_lt_upper_bound; lia.
Qed.

(** C5.  For every move with steps that [dda_create] plans, lines 373-380
    make [rampup_steps] and [rampdown_steps] from [x], the ramp length which
    lines 352-369 compute ([ramp_length]), in 32-bit arithmetic.  Whenever
    [x] is below 2^31 (the comments of dda.c budget 14 bits for it), and so
    whenever [total_steps] keeps the product on line 369 within 32 bits
    (12500 * total_steps < 2^32), twice [rampup_steps] is at most
    [total_steps], [rampdown_steps] is [total_steps - rampup_steps], and
    [rampup_steps] is [x], or [total_steps / 2] when twice [x] exceeds
    [total_steps]. *)
Theorem ramps_clipped (q : DDA) (target : TARGET) (m : machine)
        (dda : DDA) (m' : machine) :
  dda_create cfg q target m = Ok (dda, m') ->
  nullmove dda = false ->
  let x := ramp_length cfg dda target in
  0 <= x < 2 ^ 32 /\
  rampup_steps dda = (if u32 (2 * x) >? total_steps dda
                      then total_steps dda / 2 else x) /\
  rampdown_steps dda = u32 (total_steps dda - rampup_steps dda) /\
  (12500 * total_steps dda < 2 ^ 32 -> x < 2 ^ 31) /\
  (x < 2 ^ 31 ->
   2 * rampup_steps dda <= total_steps dda /\
   rampdown_steps dda = total_steps dda - rampup_steps dda /\
   rampup_steps dda = (if 2 * x >? total_steps dda
                       then total_steps dda / 2 else x)).
Proof.
  intros Hc Hn. cbv zeta.
  pose proof (dda_create_geometry cfg _ _ _ _ _ Hc) as Hg. cbv zeta in Hg.
  destruct Hg as (_ & Hnull & _ & _ & _ & _ & _ & Gx & Gy & Gz & Ge & Hsteps).
  pose proof (dda_create_deltas_total_steps q target m) as Hmax.
  pose proof (dda_create_deltas_range q target m) as Hr.
  cbv zeta in Hmax, Hr.
  set (g := dda_create_deltas q target m) in *.
  rewrite Hn in Hnull. symmetry in Hnull. apply Z.eqb_neq in Hnull.
  assert (Hpos : 0 < total_steps g) by lia.
  apply dda_create_inv in Hc. cbv zeta in Hc. fold g in Hc.
  destruct Hc as [_ [(H0 & _) | (_ & m1 & Ht & _)]]; [contradiction|].
  destruct (dda_create_timing_locals _ _ _ _ _ Ht)
    as ((_ & _ & _ & Hdv) & _ & Hru & Hrd).
  destruct (locals_of_geometry g dda target Gx Gy Gz Ge Hsteps)
    as (_ & _ & ->).
  set (x := ramp_length cfg g target) in *.
  destruct (ramp_length_range g target Hdv) as (Hx & Hsmall).
  fold x in Hx, Hsmall.
  assert (Hgr : 0 <= total_steps g < 2 ^ 32) by lia.
  rewrite Hru, Hrd, Hsteps.
  split; [exact Hx|].
  split; [reflexivity|]. split; [reflexivity|]. split.
  - intros Hts. apply Hsmall; assumption.
  - intros Hlt.
    assert (Hx' : 0 <= x < 2 ^ 31) by lia.
    destruct (clip_ramps_spec g x Hx' Hgr) as (Hu & _ & H2 & Hd & _).
    repeat split; assumption.
Qed.

(** C8, as the code has it.  Whatever the input, [dda_create] never divides
    by a [total_steps] of zero, and a move without steps reaches no division
    at all.  The other divisors are not covered by the test on
    [total_steps]: a move with steps and a target feed rate of zero divides
    by zero on line 225. *)
Theorem total_steps_divisor_nonzero (q : DDA) (target : TARGET) (m : machine) :
  divides_by_zero by_total_steps (dda_create cfg q target m) = false /\
  (if total_steps (dda_create_deltas q target m) =? 0
   then completed (dda_create cfg q target m) = true
   else if tF target =? 0
        then dda_create cfg q target m = DivisionByZero by_target_F
        else True).
Proof.
  unfold dda_create. cbv zeta.
  set (g := dda_create_deltas q target m).
  destruct (Z.eqb_spec (total_steps g) 0) as [H0|H0].
  - cbn. split; reflexivity.
  - unfold dda_create_timing, divide, bind.
    destruct (tF target =? 0); [split; reflexivity|].
    apply Z.eqb_neq in H0. rewrite H0.
    split; [|exact I].
    repeat match goal with
           | |- context [if ?b =? 0 then DivisionByZero _ else _] =>
               destruct (b =? 0); [reflexivity|]
           end.
    reflexivity.
Qed.

End RampClaims.

(** ** One tick of the step generator *)

Lemma timer_delay_max (dda : DDA) (ms : MOVE_STATE) :
  timer_delay dda ms = Z.shiftr (Z.max (c_min dda) (c ms)) 8 /\
  timer_delay dda ms = Z.max (Z.shiftr (c_min dda) 8) (Z.shiftr (c ms) 8).
Proof.
  unfold timer_delay.
  destruct (Z.gtb_spec (c_min dda) (c ms)) as [H|H].
  - assert (Hm := shiftr_8_monotone (c ms) (c_min dda)).
    rewrite !Z.max_l by lia. auto.
  - assert (Hm := shiftr_8_monotone (c_min dda) (c ms)).
    rewrite !Z.max_r by lia. auto.
Qed.

Lemma timer_delay_set_live (dda : DDA) (b : bool) (ms : MOVE_STATE) :
  timer_delay (set_live dda b) ms = timer_delay dda ms.
Proof. unfold timer_delay. cbn [c_min set_live]. reflexivity. Qed.

Lemma timer_writes_app (l1 l2 : list pinio.call) :
  timer_writes (l1 ++ l2) = timer_writes l1 ++ timer_writes l2.
Proof. unfold timer_writes. apply flat_map_app. Qed.

Lemma count_app (e : pinio.call) (l1 l2 : list pinio.call) :
  count e (l1 ++ l2) = count e l1 + count e l2.
Proof. unfold count. rewrite count_occ_app. lia. Qed.

(** [dda_step] with its parts named. *)
Lemma dda_step_parts (cfg : Config) (dda : DDA) (m : machine) :
  let ms := move_state m in
  let ts := total_steps dda in
  let X' := axis_step (x_delta dda) ts (x_counter ms) (x_steps ms) in
  let Y' := axis_step (y_delta dda) ts (y_counter ms) (y_steps ms) in
  let Z' := axis_step (z_delta dda) ts (z_counter ms) (z_steps ms) in
  let E' := axis_step (e_delta dda) ts (e_counter ms) (e_steps ms) in
  let R := ramp_step dda ms in
  let did_step := snd X' || snd Y' || snd Z' || snd E' in
  let ms' := mkMOVE_STATE (fst (fst X')) (fst (fst Y')) (fst (fst Z'))
                          (fst (fst E'))
                          (snd (fst X')) (snd (fst Y')) (snd (fst Z'))
                          (snd (fst E'))
                          (snd R) (snd (fst R)) (fst (fst R)) in
  let finished :=
    negb did_step && (snd (fst X') =? 0) && (snd (fst Y') =? 0) &&
    (snd (fst Z') =? 0) && (snd (fst E') =? 0) in
  dda_step cfg dda m =
    ((if finished then set_live dda false else dda),
     mkmachine (startpoint m)
               (if finished then finish_position cfg dda (current_position m)
                else current_position m)
               ms'
               (if did_step then 0 else steptimeout m)
               (outputs m ++
                tick_calls (snd X') (snd Y') (snd Z') (snd E') finished
                           (timer_delay dda ms'))).
Proof.
  cbv zeta. unfold dda_step.
  destruct (axis_step (x_delta dda) _ _ _) as [[xc xs] xp].
  destruct (axis_step (y_delta dda) _ _ _) as [[yc ys] yp].
  destruct (axis_step (z_delta dda) _ _ _) as [[zc zs] zp].
  destruct (axis_step (e_delta dda) _ _ _) as [[ec es] ep].
  destruct (ramp_step dda (move_state m)) as [[n' c'] s'].
  cbn [fst snd].
  destruct (negb (xp || yp || zp || ep) && (xs =? 0) && (ys =? 0) &&
            (zs =? 0) && (es =? 0)); reflexivity.
Qed.

(** The ramp computation keeps [n] congruent to 1 modulo 4, as [dda_init]
    sets it; in particular line 585 never divides by zero. *)
Lemma ramp_step_parity (dda : DDA) (ms : MOVE_STATE) :
  n ms mod 4 = 1 -> fst (fst (ramp_step dda ms)) mod 4 = 1.
Proof.
  intros Hn. unfold ramp_step, ramp_direction.
  assert (Hneg : i32 (-2 - n ms) mod 4 = 1).
  { rewrite i32_mod4.
    assert (H := Z.div_mod (n ms) 4).
    replace (-2 - n ms) with (1 + (- (n ms / 4) - 1) * 4) by lia.
    rewrite Z.mod_add by lia. reflexivity. }
  assert (Hadd : forall v, v mod 4 = 1 -> i32 (v + 4) mod 4 = 1).
  { intros v Hv. rewrite i32_mod4.
    replace (v + 4) with (v + 1 * 4) by lia.
    rewrite Z.mod_add by lia. exact Hv. }
  destruct (step_no ms <? rampup_steps dda).
  - destruct (n ms <? 0); cbn; auto.
  - destruct (step_no ms >? rampdown_steps dda).
    + destruct (n ms >? 0); cbn; auto.
    + cbn. exact Hn.
Qed.

Lemma dda_init_parity (feed : Z) : n (move_state (dda_init feed)) mod 4 = 1.
Proof. reflexivity. Qed.

Lemma dda_start_parity (dda : DDA) (m : machine) :
  n (move_state m) mod 4 = 1 ->
  n (move_state (snd (dda_start dda m))) mod 4 = 1.
Proof.
  intros H. unfold dda_start. destruct (nullmove dda); cbn; exact H.
Qed.

Lemma dda_step_parity (cfg : Config) (dda : DDA) (m : machine) :
  n (move_state m) mod 4 = 1 ->
  n (move_state (snd (dda_step cfg dda m))) mod 4 = 1.
Proof.
  intros H. rewrite dda_step_parts. cbn [snd move_state n].
  apply ramp_step_parity. exact H.
Qed.

Lemma ramp_period_small (c n : Z) :
  0 <= c < 2 ^ 30 -> ramp_period c n = u32 (c - Z.quot (c * 2) n).
Proof.
  intros Hc. unfold ramp_period.
  rewrite (u32_small (c * 2)) by lia.
  rewrite !i32_small by lia. reflexivity.
Qed.

Lemma ramp_period_speeding_up (c n : Z) :
  0 <= c < 2 ^ 30 -> 2 <= n -> ramp_period c n = c - Z.quot (c * 2) n.
Proof.
  intros Hc Hn. rewrite ramp_period_small by exact Hc.
  rewrite Z.quot_div_nonneg by lia.
  assert (H0 : 0 <= c * 2 / n) by (apply Z.div_pos; lia).
  assert (H1 : c * 2 / n <= c) by (apply Z.div_le_upper_bound; nia).
  apply u32_small. lia.
Qed.

Section StepClaims.

Variable cfg : Config.

(** C3.  One call of [dda_step], on a state whose [n] is congruent to 1
    modulo 4 (as [dda_init] sets it and every tick keeps it), with [n] and
    [c] far enough from the ends of their 32 bits, and on a record with
    [rampup_steps <= rampdown_steps] (as the planner makes them).  If
    [step_no < rampup_steps], [n] is made positive ([-2 - n] if it was
    negative); if [step_no > rampdown_steps], [n] is made negative ([-2 - n]
    if it was positive); in both cases 4 is added to it and the period
    becomes [c - (c * 2) / n], with C's truncating division and stored in a
    [uint32_t].  Otherwise [n] and [c] stay.  [step_no] goes up by one every
    time. *)
Theorem ramp_recalculation (dda : DDA) (m : machine) :
  let ms := move_state m in
  let ms' := move_state (snd (dda_step cfg dda m)) in
  n ms mod 4 = 1 ->
  Z.abs (n ms) < 2 ^ 31 - 6 ->
  0 <= c ms < 2 ^ 30 ->
  rampup_steps dda <= rampdown_steps dda ->
  step_no ms' = u32 (step_no ms + 1) /\
  (step_no ms < rampup_steps dda ->
   let nf := if n ms <? 0 then -2 - n ms else n ms in
   0 < nf /\ n ms' = nf + 4 /\
   c ms' = c ms - Z.quot (c ms * 2) (n ms')) /\
  (rampdown_steps dda < step_no ms ->
   let nf := if n ms >? 0 then -2 - n ms else n ms in
   nf < 0 /\ n ms' = nf + 4 /\
   c ms' = u32 (c ms - Z.quot (c ms * 2) (n ms'))) /\
  (rampup_steps dda <= step_no ms <= rampdown_steps dda ->
   n ms' = n ms /\ c ms' = c ms).
Proof.
  cbv zeta. intros Hmod Hn Hc Hru.
  rewrite dda_step_parts. cbn [snd move_state step_no c n].
  unfold ramp_step, ramp_direction.
  set (ms := move_state m) in *.
  assert (Hn0 : n ms <= -3 \/ 1 <= n ms).
  { assert (H := Z.div_mod (n ms) 4). lia. }
  destruct (Z.ltb_spec (step_no ms) (rampup_steps dda)) as [Hup|Hup].
  - (* ramping up *)
    destruct (Z.ltb_spec (n ms) 0) as [Hneg|Hneg]; cbn [fst snd];
      (split; [reflexivity|]);
      (split; [intros _|split; [intros; lia|intros; lia]]).
    + rewrite (i32_small (-2 - n ms)) by lia.
      rewrite (i32_small (-2 - n ms + 4)) by lia.
      rewrite ramp_period_speeding_up by lia. repeat split; lia.
    + rewrite (i32_small (n ms + 4)) by lia.
      rewrite ramp_period_speeding_up by lia. repeat split; lia.
  - destruct (Z.gtb_spec (step_no ms) (rampdown_steps dda)) as [Hdn|Hdn].
    + (* ramping down *)
      destruct (Z.gtb_spec (n ms) 0) as [Hpos|Hpos]; cbn [fst snd];
        (split; [reflexivity|]);
        (split; [intros; lia|split; [intros _|intros; lia]]).
      * rewrite (i32_small (-2 - n ms)) by lia.
        rewrite (i32_small (-2 - n ms + 4)) by lia.
        rewrite ramp_period_small by lia. repeat split; lia.
      * rewrite (i32_small (n ms + 4)) by lia.
        rewrite ramp_period_small by lia. repeat split; lia.
    + (* cruising *)
      cbn [fst snd]. split; [reflexivity|].
      split; [intros; lia|]. split; [intros; lia|]. intros _. split; reflexivity.
Qed.

(** C4.  Periods are kept in 24.8 fixed point and [setTimer] is given their
    whole ticks ([>> 8]).  Starting a move with steps makes one call of
    [setTimer], and so does every call of [dda_step]; the delay is the
    larger of [c_min] and the current period [move_state.c] (which is [c0]
    at the start), in whole ticks, and so never below [c_min]: not below
    its whole ticks, and, [c_min] being a whole number of ticks as the
    planner makes it, not below [c_min] itself when taken back to fixed
    point. *)
Theorem timer_never_below_c_min (dda : DDA) (m : machine) :
  nullmove dda = false ->
  let m1 := snd (dda_start dda m) in
  let m2 := snd (dda_step cfg dda m) in
  let v1 := Z.shiftr (Z.max (c_min dda) (c (move_state m1))) 8 in
  let v2 := Z.shiftr (Z.max (c_min dda) (c (move_state m2))) 8 in
  c (move_state m1) = c0 dda /\
  timer_writes (outputs m1) = timer_writes (outputs m) ++ [v1] /\
  timer_writes (outputs m2) = timer_writes (outputs m) ++ [v2] /\
  v1 = Z.max (Z.shiftr (c_min dda) 8) (Z.shiftr (c (move_state m1)) 8) /\
  v2 = Z.max (Z.shiftr (c_min dda) 8) (Z.shiftr (c (move_state m2)) 8) /\
  Z.shiftr (c_min dda) 8 <= v1 /\
  Z.shiftr (c_min dda) 8 <= v2 /\
  (c_min dda mod 256 = 0 ->
   c_min dda <= Z.shiftl v1 8 /\ c_min dda <= Z.shiftl v2 8).
Proof.
  intros Hn. cbv zeta.
  assert (H1 : c (move_state (snd (dda_start dda m))) = c0 dda /\
               timer_writes (outputs (snd (dda_start dda m)))
               = timer_writes (outputs m) ++
                 [timer_delay dda (move_state (snd (dda_start dda m)))]).
  { unfold dda_start. rewrite Hn. cbn [snd]. unfold emit, set_move_state.
    cbn [outputs move_state c set_steptimeout].
    split; [reflexivity|].
    rewrite !timer_writes_app.
    rewrite timer_delay_set_live.
    destruct (z_delta dda =? 0); cbn [timer_writes flat_map app];
      rewrite !app_nil_r; reflexivity. }
  assert (H2 : timer_writes (outputs (snd (dda_step cfg dda m)))
               = timer_writes (outputs m) ++
                 [timer_delay dda (move_state (snd (dda_step cfg dda m)))]).
  { rewrite dda_step_parts. cbn [snd outputs move_state].
    rewrite timer_writes_app. f_equal. unfold tick_calls.
    abstract_flags. destruct_flags; reflexivity. }
  destruct H1 as [Hc0 H1].
  destruct (timer_delay_max dda (move_state (snd (dda_start dda m))))
    as [E1 E1'].
  destruct (timer_delay_max dda (move_state (snd (dda_step cfg dda m))))
    as [E2 E2'].
  rewrite E1 in H1. rewrite E2 in H2.
  assert (V1 := eq_trans (eq_sym E1) E1').
  assert (V2 := eq_trans (eq_sym E2) E2').
  assert (F1 : Z.shiftr (c_min dda) 8
               <= Z.shiftr (Z.max (c_min dda)
                                  (c (move_state (snd (dda_start dda m))))) 8)
    by (rewrite V1; apply Z.le_max_l).
  assert (F2 : Z.shiftr (c_min dda) 8
               <= Z.shiftr (Z.max (c_min dda)
                                  (c (move_state (snd (dda_step cfg dda m))))) 8)
    by (rewrite V2; apply Z.le_max_l).
  repeat (split; [assumption|]).
  intros Hwhole.
  rewrite !Z.shiftl_mul_pow2 by lia. change (2 ^ 8) with 256.
  assert (Hc : c_min dda = 256 * Z.shiftr (c_min dda) 8).
  { rewrite Z.shiftr_div_pow2 by lia. change (2 ^ 8) with 256.
    assert (H := Z.div_mod (c_min dda) 256). lia. }
  lia.
Qed.

End StepClaims.

(** ** The Bresenham counters over a whole move *)

Lemma i32_u32 (x : Z) : i32 (u32 x) = i32 x.
Proof.
  unfold i32, u32. rewrite Z.add_mod_idemp_l by lia. reflexivity.
Qed.

Lemma half_range (ts : Z) : 0 <= ts -> 0 <= ts / 2 <= ts.
Proof.
  intros H. split; [apply Z.div_pos; lia|].
  apply Z.div_le_upper_bound; lia.
Qed.

Lemma axis_inv_start (delta ts : Z) :
  0 < ts < 2 ^ 30 -> 0 <= delta <= ts ->
  axis_inv delta ts 0 (i32 (u32 (- Z.shiftr ts 1))) delta.
Proof.
  intros Hts Hd. assert (Hh := half_range ts).
  rewrite i32_u32, shiftr_1, i32_small by lia.
  unfold axis_inv. repeat split; lia.
Qed.

(** One tick on one axis, before the last tick of the move. *)
Lemma axis_step_inv (delta ts k counter steps : Z) :
  0 < ts < 2 ^ 30 -> 0 <= delta <= ts -> 0 <= k < ts ->
  axis_inv delta ts k counter steps ->
  let r := axis_step delta ts counter steps in
  axis_inv delta ts (k + 1) (fst (fst r)) (snd (fst r)) /\
  snd (fst r) = steps - (if snd r then 1 else 0) /\
  (delta = ts -> snd r = true).
Proof.
  intros Hts Hd Hk (Hs & Hc & Hm). cbv zeta. unfold axis_step.
  assert (Hh := half_range ts).
  destruct (Z.eqb_spec steps 0) as [H0|H0]; cbn [fst snd].
  - subst steps. unfold axis_inv. repeat split; try lia.
  - destruct Hc as [Hc Hb]; [lia|].
    rewrite (i32_small (counter - delta)) by lia.
    destruct (Z.ltb_spec (counter - delta) 0) as [Hlt|Hge]; cbn [fst snd].
    + rewrite (i32_small (counter - delta + ts)) by lia.
      rewrite (u32_small (steps - 1)) by lia.
      unfold axis_inv. repeat split; try lia.
    + unfold axis_inv. repeat split; try lia.
Qed.

(** After [total_steps] ticks an axis has no steps left. *)
Lemma axis_inv_done (delta ts counter steps : Z) :
  0 < ts -> 0 <= delta <= ts ->
  axis_inv delta ts ts counter steps -> steps = 0.
Proof.
  intros Hts Hd (Hs & Hc & _).
  destruct (Z.eq_dec steps 0) as [H0|H0]; [exact H0|].
  destruct Hc as [Hc Hb]; [lia|].
  assert (Hh := half_range ts). nia.
Qed.

Lemma axis_step_idle (delta ts counter : Z) :
  axis_step delta ts counter 0 = (counter, 0, false).
Proof. reflexivity. Qed.

Lemma count_tick_calls (xp yp zp ep finished : bool) (delay : Z) :
  let calls := tick_calls xp yp zp ep finished delay in
  count pinio.x_step calls = (if xp then 1 else 0) /\
  count pinio.y_step calls = (if yp then 1 else 0) /\
  count pinio.z_step calls = (if zp then 1 else 0) /\
  count pinio.e_step calls = (if ep then 1 else 0).
Proof.
  destruct xp, yp, zp, ep, finished; cbv zeta; repeat split; reflexivity.
Qed.

Section Moves.

Variable cfg : Config.

Lemma stepping_start (dda : DDA) (m : machine) :
  has_steps dda ->
  stepping dda m 0 (fst (dda_start dda m)) (snd (dda_start dda m)).
Proof.
  intros (Hn & Hts & Hx & Hy & Hz & He & _).
  unfold dda_start. rewrite Hn. cbn [fst snd].
  unfold stepping, emit, set_move_state, set_steptimeout. cbv zeta.
  cbn [move_state current_position startpoint outputs
       x_counter y_counter z_counter e_counter
       x_steps y_steps z_steps e_steps].
  repeat (split; [first [reflexivity | apply axis_inv_start; assumption]|]).
  match goal with
  | |- context [pinio.setTimer ?v] => generalize v; intros delay
  end.
  rewrite !count_app.
  destruct (z_delta dda =? 0);
    repeat match goal with
           | |- context [count ?e (?a :: ?l)] =>
               change (count e (a :: l)) with 0
           | |- context [count ?e []] => change (count e []) with 0
           end;
    repeat split; lia.
Qed.

(** A tick before the last pulse keeps [stepping] and makes a pulse. *)
Lemma stepping_tick (dda : DDA) (m0 : machine) (k : Z) (d : DDA) (m : machine) :
  has_steps dda -> 0 <= k < total_steps dda ->
  stepping dda m0 k d m ->
  stepping dda m0 (k + 1) (fst (dda_step cfg d m)) (snd (dda_step cfg d m)) /\
  pulses (outputs m) < pulses (outputs (snd (dda_step cfg d m))) /\
  e_steps (move_state m) - 1
    <= e_steps (move_state (snd (dda_step cfg d m)))
    <= e_steps (move_state m).
Proof.
  intros (Hn & Hts & Hx & Hy & Hz & He & Hmax) Hk.
  intros (Hd & Hcp & Hsp & Ix & Iy & Iz & Ie & Cx & Cy & Cz & Ce).
  subst d. cbv zeta in *.
  rewrite dda_step_parts. cbv zeta.
  cbn [x_delta y_delta z_delta e_delta total_steps set_live].
  destruct (axis_step_inv _ _ _ _ _ Hts Hx Hk Ix) as (Ix' & Sx & Mx).
  destruct (axis_step_inv _ _ _ _ _ Hts Hy Hk Iy) as (Iy' & Sy & My).
  destruct (axis_step_inv _ _ _ _ _ Hts Hz Hk Iz) as (Iz' & Sz & Mz).
  destruct (axis_step_inv _ _ _ _ _ Hts He Hk Ie) as (Ie' & Se & Me).
  remember (axis_step (x_delta dda) _ _ _) as rx eqn:Erx.
  remember (axis_step (y_delta dda) _ _ _) as ry eqn:Ery.
  remember (axis_step (z_delta dda) _ _ _) as rz eqn:Erz.
  remember (axis_step (e_delta dda) _ _ _) as re eqn:Ere.
  destruct rx as [[xc xs] xp], ry as [[yc ys] yp],
           rz as [[zc zs] zp], re as [[ec es] ep].
  clear Erx Ery Erz Ere. cbn [fst snd] in *.
  assert (Hdid : xp || yp || zp || ep = true).
  { destruct xp, yp, zp, ep; try reflexivity.
    exfalso. intuition discriminate. }
  rewrite Hdid. cbn [negb andb fst snd].
  match goal with
  | |- context [tick_calls _ _ _ _ _ ?v] => generalize v; intros delay
  end.
  destruct (count_tick_calls xp yp zp ep false delay) as (Tx & Ty & Tz & Te).
  cbv zeta in Tx, Ty, Tz, Te.
  unfold stepping, pulses. cbv zeta.
  cbn [move_state current_position startpoint outputs
       x_counter y_counter z_counter e_counter
       x_steps y_steps z_steps e_steps].
  rewrite !count_app, Tx, Ty, Tz, Te.
  split; [|split].
  - repeat (split; [first [reflexivity | assumption]|]).
    repeat split; lia.
  - destruct xp, yp, zp, ep; try discriminate; lia.
  - destruct ep; lia.
Qed.

(** The tick after the last pulse finds the move done. *)
Lemma stepping_finish (dda : DDA) (m0 : machine) (d : DDA) (m : machine) :
  has_steps dda ->
  stepping dda m0 (total_steps dda) d m ->
  let d' := fst (dda_step cfg d m) in
  let m' := snd (dda_step cfg d m) in
  x_steps (move_state m) = 0 /\ y_steps (move_state m) = 0 /\
  z_steps (move_state m) = 0 /\ e_steps (move_state m) = 0 /\
  d' = set_live dda false /\
  current_position m' = finish_position cfg dda (current_position m) /\
  startpoint m' = startpoint m /\
  count pinio.x_step (outputs m') = count pinio.x_step (outputs m) /\
  count pinio.y_step (outputs m') = count pinio.y_step (outputs m) /\
  count pinio.z_step (outputs m') = count pinio.z_step (outputs m) /\
  count pinio.e_step (outputs m') = count pinio.e_step (outputs m).
Proof.
  intros (Hn & Hts & Hx & Hy & Hz & He & Hmax).
  intros (Hd & Hcp & Hsp & Ix & Iy & Iz & Ie & Cx & Cy & Cz & Ce).
  subst d. cbv zeta in *.
  assert (Hpos : 0 < total_steps dda) by lia.
  apply (axis_inv_done _ _ _ _ Hpos Hx) in Ix.
  apply (axis_inv_done _ _ _ _ Hpos Hy) in Iy.
  apply (axis_inv_done _ _ _ _ Hpos Hz) in Iz.
  apply (axis_inv_done _ _ _ _ Hpos He) in Ie.
  rewrite dda_step_parts. cbv zeta.
  rewrite Ix, Iy, Iz, Ie, !axis_step_idle.
  cbn [fst snd orb negb andb Z.eqb].
  cbn [current_position startpoint outputs].
  repeat (split; [reflexivity|]).
  match goal with
  | |- context [tick_calls _ _ _ _ _ ?v] => generalize v; intros delay
  end.
  destruct (count_tick_calls false false false false true delay)
    as (Tx & Ty & Tz & Te).
  cbv zeta in Tx, Ty, Tz, Te.
  rewrite !count_app, Tx, Ty, Tz, Te. repeat split; lia.
Qed.

Lemma ticks_S (k : nat) (d : DDA) (m : machine) :
  ticks cfg (S k) d m
  = dda_step cfg (fst (ticks cfg k d m)) (snd (ticks cfg k d m)).
Proof. cbn [ticks]. destruct (ticks cfg k d m). reflexivity. Qed.

(** [k] ticks into a move, for [k] up to [total_steps]. *)
Lemma stepping_ticks (dda : DDA) (m : machine) (k : nat) :
  has_steps dda -> Z.of_nat k <= total_steps dda ->
  let r := ticks cfg k (fst (dda_start dda m)) (snd (dda_start dda m)) in
  stepping dda m (Z.of_nat k) (fst r) (snd r).
Proof.
  intros Hs. cbv zeta. induction k as [|k IH]; intros Hk.
  - cbn [ticks fst snd]. apply stepping_start. exact Hs.
  - rewrite ticks_S, Nat2Z.inj_succ. unfold Z.succ.
    apply stepping_tick; [exact Hs|lia|apply IH; lia].
Qed.

(** Refreshing the position does not disturb a move. *)
Lemma stepping_refresh (dda : DDA) (m0 : machine) (k : Z)
      (d : DDA) (m : machine) :
  stepping dda m0 k d m ->
  stepping dda
    (set_current_position m0 (current_position (update_position cfg d m)))
    k d (update_position cfg d m).
Proof.
  intros (Hd & Hcp & Hsp & H). subst d.
  unfold update_position. cbn [live set_live negb].
  unfold stepping. cbv zeta.
  cbn [set_current_position move_state current_position startpoint outputs].
  repeat (split; [first [reflexivity | assumption]|]). exact H.
Qed.

(** Every move with steps that the planner makes is one of [has_steps], as
    long as its [total_steps] is below 2^30. *)
Lemma planned_has_steps (q : DDA) (target : TARGET) (m : machine)
      (dda : DDA) (m' : machine) :
  dda_create cfg q target m = Ok (dda, m') ->
  0 < total_steps dda < 2 ^ 30 ->
  has_steps dda.
Proof.
  intros Hc Hts.
  pose proof (dda_create_geometry cfg _ _ _ _ _ Hc) as Hg. cbv zeta in Hg.
  destruct Hg as (_ & Hnull & _ & _ & _ & _ & _ & Hx & Hy & Hz & He & Hsteps).
  pose proof (dda_create_deltas_total_steps q target m) as Hmax.
  pose proof (dda_create_deltas_range q target m) as Hr.
  cbv zeta in Hmax, Hr.
  rewrite <- Hx, <- Hy, <- Hz, <- He, <- Hsteps in *.
  unfold has_steps. split.
  - rewrite Hnull. apply Z.eqb_neq. lia.
  - split; [exact Hts|]. lia.
Qed.

(** C2, as the code has it.  [total_steps] of a planned move is the largest
    of its four deltas, each the absolute difference of target and
    [startpoint].  A move with steps (fewer than 2^30) then makes pulses on
    each of its first [total_steps] ticks and stays live through them; it is
    one tick more, the tick [total_steps + 1], which makes no pulse and
    marks the record as no longer live. *)
Theorem total_steps_max_and_ticks (q : DDA) (target : TARGET) (m0 : machine)
        (dda : DDA) (m0' : machine) :
  dda_create cfg q target m0 = Ok (dda, m0') ->
  x_delta dda = Z.abs (i32 (tX target - tX (startpoint m0))) /\
  y_delta dda = Z.abs (i32 (tY target - tY (startpoint m0))) /\
  z_delta dda = Z.abs (i32 (tZ target - tZ (startpoint m0))) /\
  e_delta dda = Z.abs (i32 (tE target - tE (startpoint m0))) /\
  total_steps dda
    = Z.max (Z.max (Z.max (x_delta dda) (y_delta dda)) (z_delta dda))
            (e_delta dda) /\
  (0 < total_steps dda < 2 ^ 30 ->
   forall (m : machine) (k : nat),
     let run j := ticks cfg j (fst (dda_start dda m)) (snd (dda_start dda m)) in
     (Z.of_nat k <= total_steps dda -> live (fst (run k)) = true) /\
     (Z.of_nat k < total_steps dda ->
      pulses (outputs (snd (run k))) < pulses (outputs (snd (run (S k))))) /\
     (Z.of_nat k = total_steps dda ->
      live (fst (run (S k))) = false /\
      pulses (outputs (snd (run (S k)))) = pulses (outputs (snd (run k))))).
Proof.
  intros Hc.
  pose proof (dda_create_geometry cfg _ _ _ _ _ Hc) as Hg. cbv zeta in Hg.
  destruct Hg as (_ & _ & _ & _ & _ & _ & _ & Hx & Hy & Hz & He & Hsteps).
  pose proof (dda_create_deltas_total_steps q target m0) as Hmax.
  cbv zeta in Hmax.
  rewrite <- Hx, <- Hy, <- Hz, <- He, <- Hsteps in Hmax.
  repeat (split; [first [exact Hmax
                        | etransitivity; [eassumption|];
                          unfold dda_create_deltas; cbv zeta;
                          cbn [x_delta y_delta z_delta e_delta];
                          apply u32_labs_i32]|]).
  intros Hts m k. cbv zeta.
  pose proof (planned_has_steps _ _ _ _ _ Hc Hts) as Hs.
  split; [|split].
  - intros Hk.
    destruct (stepping_ticks dda m k Hs Hk) as (Hd & _).
    rewrite Hd. reflexivity.
  - intros Hk.
    pose proof (stepping_ticks dda m k Hs) as Hr. cbv zeta in Hr.
    rewrite ticks_S.
    apply (stepping_tick dda m (Z.of_nat k)); [exact Hs|lia|apply Hr; lia].
  - intros Hk.
    pose proof (stepping_ticks dda m k Hs) as Hr. cbv zeta in Hr.
    rewrite Hk in Hr. specialize (Hr (Z.le_refl _)).
    rewrite ticks_S.
    destruct (stepping_finish dda m _ _ Hs Hr)
      as (_ & _ & _ & _ & Hd & _ & _ & Cx & Cy & Cz & Ce).
    cbv zeta in *. rewrite Hd. split; [reflexivity|].
    unfold pulses. lia.
Qed.

(** C1, as the code has it.  A move with steps (fewer than 2^30) that the
    planner made, started on any machine, is done after [total_steps + 1]
    ticks; by then every axis has made exactly its delta of pulses.  The
    tick that finds the move done sets [current_position.F] to the feed rate
    of the end point and, unless E_ABSOLUTE is defined, [current_position.E]
    to zero; it leaves X, Y and Z as they were, and [update_position] does
    nothing once the move is done: after a move during which
    [update_position] did not run, X, Y and Z still are what they were when
    the move was started.  If [update_position] runs between the last pulse
    and that tick, it sets X, Y and Z to the end point, and the position
    after the move is the end point, but for E under relative mode, which
    is 0. *)
Theorem move_pulses_and_position (q : DDA) (target : TARGET) (m0 : machine)
        (dda : DDA) (m0' : machine) :
  dda_create cfg q target m0 = Ok (dda, m0') ->
  0 < total_steps dda < 2 ^ 30 ->
  TARGET_in_range target ->
  forall m : machine,
    let start := dda_start dda m in
    let last := ticks cfg (Z.to_nat (total_steps dda))
                      (fst start) (snd start) in
    let done := ticks cfg (S (Z.to_nat (total_steps dda)))
                      (fst start) (snd start) in
    let refreshed := update_position cfg (fst last) (snd last) in
    let E_at_rest (e : Z) := if E_ABSOLUTE cfg then e else 0 in
    live (fst last) = true /\ live (fst done) = false /\
    count pinio.x_step (outputs (snd done))
      = count pinio.x_step (outputs m) + x_delta dda /\
    count pinio.y_step (outputs (snd done))
      = count pinio.y_step (outputs m) + y_delta dda /\
    count pinio.z_step (outputs (snd done))
      = count pinio.z_step (outputs m) + z_delta dda /\
    count pinio.e_step (outputs (snd done))
      = count pinio.e_step (outputs m) + e_delta dda /\
    current_position (snd done)
      = mkTARGET (tX (current_position m)) (tY (current_position m))
                 (tZ (current_position m))
                 (E_at_rest (tE (current_position m))) (tF target) /\
    update_position cfg (fst done) (snd done) = snd done /\
    current_position refreshed
      = mkTARGET (tX target) (tY target) (tZ target)
                 (E_at_rest (tE target)) (tF (current_position m)) /\
    current_position (snd (dda_step cfg (fst last) refreshed))
      = mkTARGET (tX target) (tY target) (tZ target)
                 (E_at_rest (tE target)) (tF target).
Proof.
  intros Hc Hts (RX & RY & RZ & RE & RF) m. cbv zeta.
  pose proof (planned_has_steps _ _ _ _ _ Hc Hts) as Hs.
  pose proof (dda_create_geometry cfg _ _ _ _ _ Hc) as Hg. cbv zeta in Hg.
  destruct Hg as (Hep & _).
  pose proof (stepping_ticks dda m (Z.to_nat (total_steps dda)) Hs) as Hr.
  cbv zeta in Hr. rewrite Z2Nat.id in Hr by lia.
  specialize (Hr (Z.le_refl _)).
  rewrite ticks_S.
  set (last := ticks cfg (Z.to_nat (total_steps dda)) _ _) in *.
  pose proof (stepping_finish dda m _ _ Hs Hr) as Hf. cbv zeta in Hf.
  destruct Hf as (Sx & Sy & Sz & Se & Hd & Hcp & _ & Cx & Cy & Cz & Ce).
  pose proof (stepping_refresh dda m _ _ _ Hr) as Hr'.
  pose proof (stepping_finish dda _ _ _ Hs Hr') as Hf'. cbv zeta in Hf'.
  destruct Hf' as (_ & _ & _ & _ & _ & Hcp' & _).
  destruct Hr as (Hl & Hcur & _ & _ & _ & _ & _ & Px & Py & Pz & Pe).
  assert (Href : current_position (update_position cfg (fst last) (snd last))
                 = mkTARGET (tX target) (tY target) (tZ target)
                     (if E_ABSOLUTE cfg then tE target else 0)
                     (tF (current_position m))).
  { unfold update_position. rewrite Hl. cbn [live set_live negb].
    cbn [set_current_position current_position endpoint set_live
         x_direction y_direction z_direction e_direction].
    rewrite Sx, Sy, Sz, Se, Hep, Hcur, !Z.add_0_r, !Z.sub_0_r.
    unfold is_i32 in *.
    rewrite (i32_small (tX target)), (i32_small (tY target)),
            (i32_small (tZ target)), (i32_small (tE target)) by assumption.
    change (i32 0) with 0.
    destruct (x_direction dda), (y_direction dda), (z_direction dda),
             (e_direction dda), (E_ABSOLUTE cfg); reflexivity. }
  split; [rewrite Hl; reflexivity|].
  split; [rewrite Hd; reflexivity|].
  repeat (split; [lia|]).
  split; [|split; [|split]].
  - rewrite Hcp, Hcur. unfold finish_position. rewrite Hep.
    destruct (E_ABSOLUTE cfg); destruct (current_position m); reflexivity.
  - unfold update_position. rewrite Hd. reflexivity.
  - exact Href.
  - rewrite Hcp', Href. unfold finish_position.
    rewrite Hep. destruct (E_ABSOLUTE cfg); reflexivity.
Qed.

(** C10.  Built without E_ABSOLUTE, [update_position] on a live move sets
    [current_position.E] to [move_state.e_steps], the extruder steps the move
    has left: [e_delta] when the move starts, [e_delta] less the extruder
    pulses made so far after each tick, never going up, and 0 once the last
    pulse is made.  X, Y and Z are the end point less or plus the steps
    left, by the direction of the axis. *)
Theorem relative_E_is_steps_left (q : DDA) (target : TARGET) (m0 : machine)
        (dda : DDA) (m0' : machine) :
  E_ABSOLUTE cfg = false ->
  dda_create cfg q target m0 = Ok (dda, m0') ->
  0 < total_steps dda < 2 ^ 30 ->
  forall (m : machine) (k : nat),
    Z.of_nat k <= total_steps dda ->
    let run j := ticks cfg j (fst (dda_start dda m)) (snd (dda_start dda m)) in
    let ms := move_state (snd (run k)) in
    let cp := current_position (update_position cfg (fst (run k)) (snd (run k))) in
    let along (dir : bool) (at_end steps : Z) :=
      if dir then i32 (at_end - steps) else i32 (at_end + steps) in
    tE cp = e_steps ms /\
    tE cp = e_delta dda - (count pinio.e_step (outputs (snd (run k)))
                           - count pinio.e_step (outputs m)) /\
    0 <= tE cp <= e_delta dda /\
    (k = 0%nat -> tE cp = e_delta dda) /\
    (Z.of_nat k < total_steps dda ->
     e_steps ms - 1 <= e_steps (move_state (snd (run (S k)))) <= e_steps ms) /\
    (Z.of_nat k = total_steps dda -> tE cp = 0) /\
    tX cp = along (x_direction dda) (tX target) (x_steps ms) /\
    tY cp = along (y_direction dda) (tY target) (y_steps ms) /\
    tZ cp = along (z_direction dda) (tZ target) (z_steps ms) /\
    tF cp = tF (current_position m).
Proof.
  intros Hrel Hc Hts m k Hk. cbv zeta.
  pose proof (planned_has_steps _ _ _ _ _ Hc Hts) as Hs.
  pose proof (dda_create_geometry cfg _ _ _ _ _ Hc) as Hg. cbv zeta in Hg.
  destruct Hg as (Hep & _).
  pose proof (stepping_ticks dda m k Hs Hk) as Hr. cbv zeta in Hr.
  set (r := ticks cfg k _ _) in *.
  assert (Hr' := Hr).
  destruct Hr' as (Hl & Hcur & _ & _ & _ & _ & (He & _) & _ & _ & _ & Pe).
  assert (HE : tE (current_position (update_position cfg (fst r) (snd r)))
               = e_steps (move_state (snd r))).
  { unfold update_position. rewrite Hl. cbn [live set_live negb].
    cbn [set_current_position current_position tE]. rewrite Hrel.
    apply i32_small. destruct Hs as (_ & _ & _ & _ & _ & ? & _). lia. }
  rewrite HE.
  split; [reflexivity|]. split; [lia|]. split; [lia|].
  split; [|split; [|split]].
  - intros ->. subst r. cbn [ticks snd].
    unfold dda_start. destruct Hs as (-> & _). reflexivity.
  - intros Hlt. rewrite ticks_S. fold r.
    apply (stepping_tick dda m (Z.of_nat k)); [exact Hs|lia|exact Hr].
  - intros Heq. rewrite Heq in Hr.
    apply (stepping_finish dda m _ _ Hs Hr).
  - unfold update_position. rewrite Hl. cbn [live set_live negb].
    cbn [set_current_position current_position tX tY tZ tF endpoint set_live
         x_direction y_direction z_direction].
    rewrite Hep, Hcur. repeat split.
Qed.

End Moves.

(** ** The claims on concrete moves *)

Lemma sample_plan :
  dda_create sample_config blank_dda sample_target (dda_init 300)
  = Ok (sample_move, planned sample_target).
Proof. vm_compute. reflexivity. Qed.

Lemma one_step_plan :
  dda_create sample_config blank_dda one_step_target (dda_init 300)
  = Ok (one_step_move, planned one_step_target).
Proof. vm_compute. reflexivity. Qed.

Lemma sample_move_in_range : 0 < total_steps sample_move < 2 ^ 30.
Proof. vm_compute. split; reflexivity. Qed.

Lemma sample_target_in_range : TARGET_in_range sample_target.
Proof. unfold TARGET_in_range, is_i32, is_u32. cbn. lia. Qed.

(** C1 fails as stated: the single step in X is made and the move is done
    after two ticks, with the end point at X = 1, yet [current_position.X]
    is still 0, and [update_position] leaves it there. *)
Lemma position_stale_after_move :
  dda_create sample_config blank_dda one_step_target (dda_init 300)
  = Ok (one_step_move, planned one_step_target) /\
  live (fst (started one_step_move one_step_target 2)) = false /\
  count pinio.x_step (outputs (snd (started one_step_move one_step_target 2)))
  = 1 /\
  tX (endpoint (fst (started one_step_move one_step_target 2))) = 1 /\
  tX (current_position (snd (started one_step_move one_step_target 2))) = 0 /\
  tX (current_position
        (update_position sample_config
           (fst (started one_step_move one_step_target 2))
           (snd (started one_step_move one_step_target 2)))) = 0.
Proof. vm_compute. repeat split. Qed.

(** C2 fails as stated: the move of one step has [total_steps = 1], and
    after one tick it is still live; it takes a second tick, which makes no
    pulse, to be done. *)
Lemma live_after_total_steps_ticks :
  dda_create sample_config blank_dda one_step_target (dda_init 300)
  = Ok (one_step_move, planned one_step_target) /\
  total_steps one_step_move = 1 /\
  live (fst (started one_step_move one_step_target 1)) = true /\
  pulses (outputs (snd (started one_step_move one_step_target 1))) = 1 /\
  live (fst (started one_step_move one_step_target 2)) = false /\
  pulses (outputs (snd (started one_step_move one_step_target 2))) = 1.
Proof. vm_compute. repeat split. Qed.

(** C6 fails as stated: an extruder feed of 100 um is exactly 1/8 of a
    distance of 800 um, and is not taken in (taken in, the distance would
    be 806). *)
Lemma eighth_exactly_not_folded :
  800 = 8 * 100 /\
  e_feed_significant 800 100 = false /\
  distance_with_e_feed sample_config 800 100 = 800 /\
  u32 (approx_distance_2d sample_config 800 100) = 806.
Proof. vm_compute. repeat split. Qed.

(** C8 fails as stated: one step in X at a feed rate of 0 divides by zero,
    in [move_duration / target->F]. *)
Lemma zero_feedrate_divides_by_zero :
  dda_create sample_config blank_dda (mkTARGET 1 0 0 0 0) (dda_init 300)
  = DivisionByZero by_target_F.
Proof. vm_compute. reflexivity. Qed.


(** C5 fails as stated: for a move of 257010843 steps in X the product on
    line 369 wraps and the divisor comes out as 1, whatever the
    configuration.  With the sample configuration line 373 then stores
    2267902995 in [rampup_steps], more than [total_steps]; twice that wraps
    to 240838694, which the test on line 375 lets pass, and
    [rampdown_steps] wraps as well. *)
Lemma ramps_beyond_total_steps :
  accel_steps_divisor 257010843 = 1 /\
  exists dda m',
    dda_create sample_config blank_dda (mkTARGET 257010843 0 0 0 1500)
               (dda_init 300) = Ok (dda, m') /\
    nullmove dda = false /\
    total_steps dda = 257010843 /\
    ramp_length sample_config dda (mkTARGET 257010843 0 0 0 1500)
    = 2267902995 /\
    rampup_steps dda = 2267902995 /\
    total_steps dda < 2 * rampup_steps dda /\
    u32 (2 * rampup_steps dda) = 240838694 /\
    rampdown_steps dda = 2284075144 /\
    rampdown_steps dda <> total_steps dda - rampup_steps dda.
Proof.
  split; [vm_compute; reflexivity|].
  eexists _, _. split; [vm_compute; reflexivity|]. by_computation.
Qed.

(** The hypotheses of the theorems above, met by the sample moves. *)

Lemma move_pulses_and_position_witness :
  live (fst (started sample_move sample_target 11)) = false /\
  count pinio.x_step (outputs (snd (started sample_move sample_target 11)))
  = count pinio.x_step (outputs (planned sample_target)) + 10 /\
  count pinio.y_step (outputs (snd (started sample_move sample_target 11)))
  = count pinio.y_step (outputs (planned sample_target)) + 5 /\
  count pinio.z_step (outputs (snd (started sample_move sample_target 11)))
  = count pinio.z_step (outputs (planned sample_target)) + 0 /\
  count pinio.e_step (outputs (snd (started sample_move sample_target 11)))
  = count pinio.e_step (outputs (planned sample_target)) + 3.
Proof.
  destruct (move_pulses_and_position sample_config blank_dda sample_target
              (dda_init 300) sample_move (planned sample_target)
              sample_plan sample_move_in_range sample_target_in_range
              (planned sample_target))
    as (_ & Hdone & Hx & Hy & Hz & He & _).
  repeat split; assumption.
Defined.

Lemma total_steps_max_and_ticks_witness :
  total_steps sample_move = Z.max (Z.max (Z.max 10 5) 0) 3 /\
  live (fst (started sample_move sample_target 10)) = true /\
  live (fst (started sample_move sample_target 11)) = false.
Proof.
  destruct (total_steps_max_and_ticks sample_config blank_dda sample_target
              (dda_init 300) sample_move (planned sample_target) sample_plan)
    as (_ & _ & _ & _ & Hmax & Hticks).
  destruct (Hticks sample_move_in_range (planned sample_target) 10%nat)
    as (Hlive & _ & Hdone).
  split; [exact Hmax|]. split.
  - apply Hlive. by_computation.
  - apply Hdone. reflexivity.
Defined.

Lemma ramp_recalculation_witness :
  let m := snd (started sample_move sample_target 0) in
  let ms' := move_state (snd (dda_step sample_config sample_move m)) in
  step_no ms' = u32 (step_no (move_state m) + 1) /\
  n ms' = 1 + 4 /\
  c ms' = c (move_state m) - Z.quot (c (move_state m) * 2) (n ms').
Proof.
  cbv zeta.
  destruct (ramp_recalculation sample_config sample_move
              (snd (started sample_move sample_target 0)))
    as (Hno & Hup & _);
    [by_computation | by_computation | by_computation | by_computation |].
  destruct Hup as (_ & Hn & Hc); [by_computation|].
  repeat split; assumption.
Defined.

Lemma timer_never_below_c_min_witness :
  timer_writes (outputs (snd (dda_start sample_move (planned sample_target))))
  = [Z.shiftr (Z.max 4505600 34419968) 8] /\
  Z.shiftr 4505600 8 <= Z.shiftr (Z.max 4505600 34419968) 8.
Proof.
  destruct (timer_never_below_c_min sample_config sample_move
              (planned sample_target) eq_refl)
    as (_ & Hstart & _ & _ & _ & Hfloor & _ & _).
  split; [exact Hstart|exact Hfloor].
Defined.

Lemma ramps_clipped_witness :
  let x := ramp_length sample_config sample_move sample_target in
  rampup_steps sample_move
  = (if 2 * x >? total_steps sample_move
     then total_steps sample_move / 2 else x) /\
  2 * rampup_steps sample_move <= total_steps sample_move /\
  rampdown_steps sample_move
  = total_steps sample_move - rampup_steps sample_move.
Proof.
  cbv zeta.
  destruct (ramps_clipped sample_config blank_dda sample_target (dda_init 300)
              sample_move (planned sample_target) sample_plan eq_refl)
    as (_ & _ & _ & Hrange & Hclaim).
  destruct (Hclaim (Hrange ltac:(by_computation))) as (H2 & Hrd & Hru).
  repeat split; assumption.
Defined.

Lemma e_feed_folded_when_above_eighth_witness :
  e_feed_significant 800 101 = (800 <? 8 * 101) /\
  (800 < 8 * 101 ->
   distance_with_e_feed sample_config 800 101
   = u32 (approx_distance_2d sample_config 800 101)) /\
  (8 * 101 <= 800 -> distance_with_e_feed sample_config 800 101 = 800).
Proof.
  apply (e_feed_folded_when_above_eighth sample_config 800 101).
  by_computation.
Defined.

Lemma nullmove_only_sets_feedrate_witness :
  exists dda m',
    dda_create sample_config blank_dda (origin 1500) (dda_init 300)
    = Ok (dda, m') /\
    nullmove dda = true /\ live dda = false /\
    outputs m' = [] /\
    dda_start dda m' = (dda, set_current_position m' (origin 1500)).
Proof.
  destruct (nullmove_only_sets_feedrate sample_config blank_dda (origin 1500)
              (dda_init 300) eq_refl eq_refl eq_refl eq_refl)
    as (dda & m' & Hc & Hn & Hl & Ho & Hcp & _ & Hstart).
  exists dda, m'.
  repeat (split; [assumption|]).
  unfold dda_start. rewrite Hn. rewrite Hcp.
  pose proof (dda_create_geometry sample_config _ _ _ _ _ Hc) as (-> & _).
  reflexivity.
Defined.


Lemma relative_E_is_steps_left_witness :
  tE (current_position
        (update_position sample_config
           (fst (started sample_move sample_target 4))
           (snd (started sample_move sample_target 4))))
  = e_steps (move_state (snd (started sample_move sample_target 4))).
Proof.
  destruct (relative_E_is_steps_left sample_config blank_dda sample_target
              (dda_init 300) sample_move (planned sample_target)
              eq_refl sample_plan sample_move_in_range
              (planned sample_target) 4%nat)
    as (HE & _); [by_computation|].
  exact HE.
Defined.

(** * Further properties of dda.c *)

(** ** The planner *)

Section PlannerMore.

Variable cfg : Config.

(** What the timing branch does to the machine. *)
Lemma dda_create_timing_machine (dda : DDA) (target : TARGET) (m : machine)
      (dda' : DDA) (m' : machine) :
  dda_create_timing cfg dda target m = Ok (dda', m') ->
  m' = emit (set_steptimeout m 0)
            [pinio.power_on; pinio.x_enable; pinio.y_enable; pinio.e_enable].
Proof.
  unfold dda_create_timing, divide, bind.
  repeat match goal with
         | |- context [if ?b =? 0 then DivisionByZero _ else _] =>
             destruct (b =? 0); [discriminate|]
         end.
  intros H.
  assert (Hm := f_equal (fun r => match r with
                                  | Ok (_, s) => s
                                  | DivisionByZero _ => m'
                                  end) H).
  cbv beta iota in Hm. symmetry. exact Hm.
Qed.

(** The target of a planned move, from [startpoint], the deltas and the
    direction flags. *)
Lemma dda_create_displacement
        (q : DDA) (target : TARGET) (m : machine) (dda : DDA) (m' : machine) :
  dda_create cfg q target m = Ok (dda, m') ->
  displacement_in_range (startpoint m) target ->
  tX target = moved (x_direction dda) (tX (startpoint m)) (x_delta dda) /\
  tY target = moved (y_direction dda) (tY (startpoint m)) (y_delta dda) /\
  tZ target = moved (z_direction dda) (tZ (startpoint m)) (z_delta dda) /\
  tE target = moved (e_direction dda) (tE (startpoint m)) (e_delta dda).
Proof.
  intros Hc (RX & RY & RZ & RE).
  pose proof (dda_create_geometry cfg _ _ _ _ _ Hc) as Hg. cbv zeta in Hg.
  destruct Hg as (_ & _ & _ & Dx & Dy & Dz & De & Hx & Hy & Hz & He & _).
  rewrite Dx, Dy, Dz, De, Hx, Hy, Hz, He.
  unfold dda_create_deltas. cbv zeta.
  cbn [x_direction y_direction z_direction e_direction
       x_delta y_delta z_delta e_delta].
  rewrite !u32_labs_i32. unfold is_i32 in *.
  rewrite !i32_small by assumption.
  unfold moved, labs.
  repeat match goal with
         | |- context [?a >=? ?b] => destruct (Z.geb_spec a b)
         end; repeat split; lia.
Qed.

(** X1.  The deltas and direction flags of a planned move give the target
    back from [startpoint]: on every axis whose difference fits an
    [int32_t], the target is [startpoint] plus the delta if the direction
    flag is set, and minus the delta if it is not. *)
Theorem deltas_and_directions_give_target
        (q : DDA) (target : TARGET) (m : machine) (dda : DDA) (m' : machine) :
  dda_create cfg q target m = Ok (dda, m') ->
  displacement_in_range (startpoint m) target ->
  tX target = moved (x_direction dda) (tX (startpoint m)) (x_delta dda) /\
  tY target = moved (y_direction dda) (tY (startpoint m)) (y_delta dda) /\
  tZ target = moved (z_direction dda) (tZ (startpoint m)) (z_delta dda) /\
  tE target = moved (e_direction dda) (tE (startpoint m)) (e_delta dda).
Proof. apply dda_create_displacement. Qed.

(** X2.  Planning leaves [current_position] and [move_state] alone, and
    hands back a record that ends at the target and is not live.  A move
    without steps makes no call and keeps [steptimeout]; a move with steps
    makes the four calls [power_on], [x_enable], [y_enable], [e_enable] and
    no other (the Z driver is left for [dda_start]), and clears
    [steptimeout]. *)
Theorem dda_create_frame
        (q : DDA) (target : TARGET) (m : machine) (dda : DDA) (m' : machine) :
  dda_create cfg q target m = Ok (dda, m') ->
  current_position m' = current_position m /\
  move_state m' = move_state m /\
  endpoint dda = target /\ live dda = false /\
  outputs m' = outputs m ++
               (if nullmove dda then []
                else [pinio.power_on; pinio.x_enable;
                      pinio.y_enable; pinio.e_enable]) /\
  steptimeout m' = (if nullmove dda then steptimeout m else 0).
Proof.
  intros Hc.
  pose proof (dda_create_geometry cfg _ _ _ _ _ Hc) as Hg. cbv zeta in Hg.
  destruct Hg as (Hep & Hnull & Hlive & _).
  apply dda_create_inv in Hc. cbv zeta in Hc.
  destruct Hc as [_ [(H0 & _ & ->) | (H0 & m1 & Ht & ->)]].
  - rewrite Hnull, H0. cbn. rewrite app_nil_r. repeat split; assumption.
  - apply dda_create_timing_machine in Ht. subst m1.
    apply Z.eqb_neq in H0. rewrite Hnull, H0. cbn.
    repeat split; assumption.
Qed.

(** X3.  Two moves planned one after the other: the second is measured from
    the target of the first.  Its deltas on X, Y and Z are the absolute
    differences of the two targets and its direction flags compare them;
    on E the first target counts only if E_ABSOLUTE is defined, and is
    taken as 0 if not. *)
Theorem second_move_starts_at_first_target
        (q1 q2 : DDA) (t1 t2 : TARGET) (m : machine)
        (d1 d2 : DDA) (m1 m2 : machine) :
  dda_create cfg q1 t1 m = Ok (d1, m1) ->
  dda_create cfg q2 t2 m1 = Ok (d2, m2) ->
  let e1 := if E_ABSOLUTE cfg then tE t1 else 0 in
  x_delta d2 = Z.abs (i32 (tX t2 - tX t1)) /\
  y_delta d2 = Z.abs (i32 (tY t2 - tY t1)) /\
  z_delta d2 = Z.abs (i32 (tZ t2 - tZ t1)) /\
  e_delta d2 = Z.abs (i32 (tE t2 - e1)) /\
  x_direction d2 = (tX t2 >=? tX t1) /\
  y_direction d2 = (tY t2 >=? tY t1) /\
  z_direction d2 = (tZ t2 >=? tZ t1) /\
  e_direction d2 = (tE t2 >=? e1).
Proof.
  intros H1 H2. cbv zeta.
  apply dda_create_inv in H1. destruct H1 as [Hsp _].
  pose proof (dda_create_geometry cfg _ _ _ _ _ H2) as Hg. cbv zeta in Hg.
  destruct Hg as (_ & _ & _ & Dx & Dy & Dz & De & Hx & Hy & Hz & He & _).
  rewrite Dx, Dy, Dz, De, Hx, Hy, Hz, He.
  unfold dda_create_deltas. cbv zeta.
  cbn [x_direction y_direction z_direction e_direction
       x_delta y_delta z_delta e_delta].
  rewrite Hsp, !u32_labs_i32. unfold next_startpoint, labs.
  destruct (E_ABSOLUTE cfg); cbn [set_E tX tY tZ tE]; repeat split.
Qed.

(** X4.  Planning the same target a second time.  If E_ABSOLUTE is defined,
    or the target has E = 0, the second move is planned without a division
    and is a [nullmove].  If E is relative and not 0, the second move is no
    [nullmove]: it has the steps of E again, and nothing on X, Y and Z. *)
Theorem same_target_again
        (q1 q2 : DDA) (t : TARGET) (m : machine) (d1 : DDA) (m1 : machine) :
  dda_create cfg q1 t m = Ok (d1, m1) ->
  let g := dda_create_deltas q2 t m1 in
  let e := if E_ABSOLUTE cfg then 0 else Z.abs (i32 (tE t)) in
  x_delta g = 0 /\ y_delta g = 0 /\ z_delta g = 0 /\
  e_delta g = e /\ total_steps g = e /\
  (e = 0 ->
   exists m2, dda_create cfg q2 t m1 = Ok (g, m2) /\ nullmove g = true) /\
  (e <> 0 ->
   forall d2 m2, dda_create cfg q2 t m1 = Ok (d2, m2) ->
                 nullmove d2 = false /\ total_steps d2 = e).
Proof.
  intros H1. cbv zeta.
  apply dda_create_inv in H1. destruct H1 as [Hsp _].
  set (e := if E_ABSOLUTE cfg then 0 else Z.abs (i32 (tE t))).
  assert (He0 : 0 <= e).
  { subst e. destruct (E_ABSOLUTE cfg); lia. }
  assert (Hd : x_delta (dda_create_deltas q2 t m1) = 0 /\
               y_delta (dda_create_deltas q2 t m1) = 0 /\
               z_delta (dda_create_deltas q2 t m1) = 0 /\
               e_delta (dda_create_deltas q2 t m1) = e).
  { unfold dda_create_deltas. cbv zeta.
    cbn [x_delta y_delta z_delta e_delta].
    rewrite Hsp, !u32_labs_i32. unfold next_startpoint, labs. subst e.
    destruct (E_ABSOLUTE cfg); cbn [set_E tX tY tZ tE];
      rewrite ?Z.sub_diag, ?Z.sub_0_r; repeat split. }
  destruct Hd as (Hx & Hy & Hz & He).
  pose proof (dda_create_deltas_total_steps q2 t m1) as Hmax.
  cbv zeta in Hmax. rewrite Hx, Hy, Hz, He in Hmax.
  assert (Hts : total_steps (dda_create_deltas q2 t m1) = e) by lia.
  repeat (split; [assumption|]).
  split.
  - intros E0. exists (set_startpoint m1 (next_startpoint cfg t)).
    assert (Hn : nullmove (dda_create_deltas q2 t m1)
                 = (total_steps (dda_create_deltas q2 t m1) =? 0))
      by reflexivity.
    rewrite Hts, E0 in Hn. split; [|exact Hn].
    unfold dda_create. cbv zeta. rewrite Hts, E0. reflexivity.
  - intros Ene d2 m2 H2.
    pose proof (dda_create_geometry cfg _ _ _ _ _ H2) as Hg. cbv zeta in Hg.
    destruct Hg as (_ & Hnull & _ & _ & _ & _ & _ & _ & _ & _ & _ & Hsteps).
    rewrite Hts in Hnull, Hsteps. split; [|exact Hsteps].
    rewrite Hnull. apply Z.eqb_neq. exact Ene.
Qed.

End PlannerMore.

(** ** The speed ceiling *)

Section Ceiling.

Variable cfg : Config.

Lemma limiting_total_clock_ticks_bounds (dda : DDA) (v : Z) :
  0 <= v < 2 ^ 32 ->
  let l := limiting_total_clock_ticks cfg dda v in
  0 <= l < 2 ^ 32 /\ v <= l /\
  forall a, u32 (delta_of a dda * MIN_CLOCKS_PER_STEP cfg a) <= l.
Proof.
  intros Hv. cbv zeta. unfold limiting_total_clock_ticks. cbv zeta.
  pose proof (u32_range (x_delta dda * MIN_CLOCKS_PER_STEP cfg X)) as Rx.
  pose proof (u32_range (y_delta dda * MIN_CLOCKS_PER_STEP cfg Y)) as Ry.
  pose proof (u32_range (z_delta dda * MIN_CLOCKS_PER_STEP cfg Z_axis)) as Rz.
  pose proof (u32_range (e_delta dda * MIN_CLOCKS_PER_STEP cfg E)) as Re.
  repeat match goal with
         | |- context [?a >? ?b] =>
             lazymatch b with
             | context [if _ then _ else _] => fail
             | _ => destruct (Z.gtb_spec a b)
             end
         end;
    (split; [lia|]); (split; [lia|]); intros [| | |]; cbn [delta_of]; lia.
Qed.

(** X5.  The speed ceiling of a planned move with steps.  When [c_limit]
    of line 254 is below 2^24, so that [c_limit << 8] on line 336 does not
    wrap, the whole ticks [c_min >> 8] of the floor of the timer are
    [c_limit].  For every axis whose [delta * MIN_CLOCKS_PER_STEP] fits 32
    bits, [total_steps] ticks of [(c_min >> 8) + 1] clocks then last longer
    than the axis needs for its steps at its rated speed; and an axis that
    has the most steps of the move is given no less than its
    MIN_CLOCKS_PER_STEP per tick. *)
Theorem c_limit_respects_axis_speeds
        (q : DDA) (target : TARGET) (m : machine) (dda : DDA) (m' : machine) :
  dda_create cfg q target m = Ok (dda, m') ->
  nullmove dda = false ->
  c_limit cfg dda target < 2 ^ 24 ->
  let floor := Z.shiftr (c_min dda) 8 in
  floor = c_limit cfg dda target /\
  forall a,
    0 <= delta_of a dda * MIN_CLOCKS_PER_STEP cfg a < 2 ^ 32 ->
    delta_of a dda * MIN_CLOCKS_PER_STEP cfg a
      < (floor + 1) * total_steps dda /\
    (delta_of a dda = total_steps dda ->
     MIN_CLOCKS_PER_STEP cfg a <= floor).
Proof.
  intros Hc Hn Hsmall. cbv zeta.
  pose proof (dda_create_geometry cfg _ _ _ _ _ Hc) as Hg. cbv zeta in Hg.
  destruct Hg as (_ & Hnull & _ & _ & _ & _ & _ & Hx & Hy & Hz & He & Hsteps).
  pose proof (dda_create_deltas_total_steps q target m) as Hmax.
  pose proof (dda_create_deltas_range q target m) as Hr.
  cbv zeta in Hmax, Hr.
  set (g := dda_create_deltas q target m) in *.
  rewrite Hn in Hnull. symmetry in Hnull. apply Z.eqb_neq in Hnull.
  assert (Hpos : 0 < total_steps g) by lia.
  apply dda_create_inv in Hc. cbv zeta in Hc. fold g in Hc.
  destruct Hc as [_ [(H0 & _) | (_ & m1 & Ht & _)]]; [contradiction|].
  destruct (dda_create_timing_locals cfg _ _ _ _ _ Ht) as (_ & Hcm & _).
  destruct (locals_of_geometry cfg g dda target Hx Hy Hz He Hsteps)
    as (_ & Hcl & _).
  rewrite Hcl in *.
  unfold c_limit in Hcm, Hsmall |- *. cbv zeta in Hcm, Hsmall |- *.
  set (v := u32 (TIME_SCALING * _)) in *.
  assert (Hv : 0 <= v < 2 ^ 32) by apply u32_range.
  destruct (limiting_total_clock_ticks_bounds g v Hv) as (Hl & _ & Hax).
  set (l := limiting_total_clock_ticks cfg g v) in *.
  assert (Hq : 0 <= l / total_steps g <= l).
  { split; [apply Z.div_pos; lia|].
    apply Z.div_le_upper_bound; nia. }
  assert (Hdm := Z.div_mod l (total_steps g)).
  assert (Hmb := Z.mod_pos_bound l (total_steps g) Hpos).
  assert (Hfl : Z.shiftr (c_min dda) 8 = l / total_steps g).
  { rewrite Hcm, Z.shiftl_mul_pow2 by lia.
    rewrite u32_small by lia.
    rewrite Z.shiftr_div_pow2 by lia. apply Z.div_mul. lia. }
  rewrite Hfl. split; [reflexivity|].
  intros a Ha. specialize (Hax a).
  assert (Hda : delta_of a dda = delta_of a g)
    by (destruct a; cbn [delta_of]; assumption).
  rewrite Hda in *. rewrite u32_small in Hax by exact Ha.
  rewrite Hsteps. split.
  - nia.
  - intros Hdom. rewrite Hdom in Hax.
    apply Z.div_le_lower_bound; lia.
Qed.

End Ceiling.

(** ** How the pulses of an axis are spread over a move *)

Lemma axis_track_start (delta ts : Z) :
  0 < ts -> axis_track delta ts 0 delta.
Proof.
  intros Hts. assert (Hh := half_range ts). unfold axis_track. lia.
Qed.

Lemma axis_step_track (delta ts k counter steps : Z) :
  0 < ts < 2 ^ 30 -> 0 <= delta <= ts -> 0 <= k < ts ->
  axis_inv delta ts k counter steps ->
  axis_track delta ts k steps ->
  axis_track delta ts (k + 1)
             (snd (fst (axis_step delta ts counter steps))).
Proof.
  intros Hts Hd Hk (Hs & Hc & _) (Hlo & Hhi). unfold axis_step.
  assert (Hh := half_range ts).
  destruct (Z.eqb_spec steps 0) as [H0|H0]; cbn [fst snd].
  - subst steps. unfold axis_track. split; nia.
  - destruct Hc as [Hc Hb]; [lia|].
    rewrite (i32_small (counter - delta)) by lia.
    destruct (Z.ltb_spec (counter - delta) 0) as [Hlt|Hge]; cbn [fst snd].
    + rewrite (u32_small (steps - 1)) by lia.
      unfold axis_track. split; nia.
    + unfold axis_track. split; nia.
Qed.

Section Spread.

Variable cfg : Config.

Lemma tracking_ticks (dda : DDA) (m : machine) (k : nat) :
  has_steps dda -> Z.of_nat k <= total_steps dda ->
  let ms := move_state (snd (ticks cfg k (fst (dda_start dda m))
                                         (snd (dda_start dda m)))) in
  axis_track (x_delta dda) (total_steps dda) (Z.of_nat k) (x_steps ms) /\
  axis_track (y_delta dda) (total_steps dda) (Z.of_nat k) (y_steps ms) /\
  axis_track (z_delta dda) (total_steps dda) (Z.of_nat k) (z_steps ms) /\
  axis_track (e_delta dda) (total_steps dda) (Z.of_nat k) (e_steps ms).
Proof.
  intros Hs. cbv zeta. induction k as [|k IH]; intros Hk.
  - destruct Hs as (Hn & Hts & _).
    cbn [ticks snd]. unfold dda_start. rewrite Hn.
    cbn [snd emit set_move_state move_state x_steps y_steps z_steps e_steps].
    repeat split; apply axis_track_start; lia.
  - assert (Hk' : Z.of_nat k <= total_steps dda) by lia.
    specialize (IH Hk'). destruct IH as (Tx & Ty & Tz & Te).
    pose proof (stepping_ticks cfg dda m k Hs Hk') as Hr. cbv zeta in Hr.
    destruct Hr as (Hd & _ & _ & Ix & Iy & Iz & Ie & _).
    rewrite ticks_S, Hd, dda_step_parts. cbv zeta.
    cbn [snd move_state x_steps y_steps z_steps e_steps
         x_delta y_delta z_delta e_delta total_steps set_live].
    rewrite Nat2Z.inj_succ. unfold Z.succ.
    destruct Hs as (_ & Hts & Hx & Hy & Hz & He & _).
    repeat split; apply axis_step_track; try assumption; lia.
Qed.

(** X6.  The pulses of an axis follow the line from start to target.
    After [k] of the [total_steps] ticks of a planned move (fewer than 2^30
    steps), the pulses [p] made on an axis with delta [d] satisfy
    [k * d <= total_steps * p < k * d + total_steps + total_steps / 2]:
    the axis is never behind the line and less than a step and a half
    ahead of it. *)
Theorem pulses_follow_the_line
        (q : DDA) (target : TARGET) (m0 : machine) (dda : DDA) (m0' : machine) :
  dda_create cfg q target m0 = Ok (dda, m0') ->
  0 < total_steps dda < 2 ^ 30 ->
  forall (m : machine) (k : nat),
    Z.of_nat k <= total_steps dda ->
    let after := snd (ticks cfg k (fst (dda_start dda m))
                                  (snd (dda_start dda m))) in
    let made (e : pinio.call) := count e (outputs after) - count e (outputs m) in
    let ts := total_steps dda in
    let on_line (d p : Z) :=
      Z.of_nat k * d <= ts * p < Z.of_nat k * d + ts + ts / 2 in
    on_line (x_delta dda) (made pinio.x_step) /\
    on_line (y_delta dda) (made pinio.y_step) /\
    on_line (z_delta dda) (made pinio.z_step) /\
    on_line (e_delta dda) (made pinio.e_step).
Proof.
  intros Hc Hts m k Hk. cbv zeta.
  pose proof (planned_has_steps cfg _ _ _ _ _ Hc Hts) as Hs.
  pose proof (tracking_ticks dda m k Hs Hk) as Ht. cbv zeta in Ht.
  pose proof (stepping_ticks cfg dda m k Hs Hk) as Hr. cbv zeta in Hr.
  destruct Hr as (_ & _ & _ & _ & _ & _ & _ & Cx & Cy & Cz & Ce).
  destruct Ht as (Tx & Ty & Tz & Te).
  unfold axis_track in *.
  rewrite Cx, Cy, Cz, Ce.
  repeat match goal with
         | |- context [?a + ?b - ?a] => replace (a + b - a) with b by lia
         end.
  repeat split; lia.
Qed.

End Spread.

(** ** The position tracker during a move *)

Section Tracker.

Variable cfg : Config.

(** X7.  The position that [update_position] gives during a move.  For a
    planned move (fewer than 2^30 steps, positions and differences within
    [int32_t]), started on any machine and [k] ticks old, it sets
    [current_position] on X, Y and Z to the [startpoint] the move was
    planned from, plus or minus, by the direction flag, the pulses made so
    far on that axis; and so it does on E if E_ABSOLUTE is defined. *)
Theorem update_position_counts_pulses
        (q : DDA) (target : TARGET) (m0 : machine) (dda : DDA) (m0' : machine) :
  dda_create cfg q target m0 = Ok (dda, m0') ->
  0 < total_steps dda < 2 ^ 30 ->
  TARGET_in_range (startpoint m0) ->
  TARGET_in_range target ->
  displacement_in_range (startpoint m0) target ->
  forall (m : machine) (k : nat),
    Z.of_nat k <= total_steps dda ->
    let r := ticks cfg k (fst (dda_start dda m)) (snd (dda_start dda m)) in
    let cp := current_position (update_position cfg (fst r) (snd r)) in
    let made (e : pinio.call) :=
      count e (outputs (snd r)) - count e (outputs m) in
    let sp := startpoint m0 in
    tX cp = moved (x_direction dda) (tX sp) (made pinio.x_step) /\
    tY cp = moved (y_direction dda) (tY sp) (made pinio.y_step) /\
    tZ cp = moved (z_direction dda) (tZ sp) (made pinio.z_step) /\
    (E_ABSOLUTE cfg = true ->
     tE cp = moved (e_direction dda) (tE sp) (made pinio.e_step)).
Proof.
  intros Hc Hts (SX & SY & SZ & SE & _) (TX & TY & TZ & TE & _) Hdis m k Hk.
  cbv zeta.
  pose proof (planned_has_steps cfg _ _ _ _ _ Hc Hts) as Hs.
  pose proof (dda_create_geometry cfg _ _ _ _ _ Hc) as Hg. cbv zeta in Hg.
  destruct Hg as (Hep & _).
  destruct (dda_create_displacement cfg _ _ _ _ _ Hc Hdis)
    as (DX & DY & DZ & DE).
  pose proof (stepping_ticks cfg dda m k Hs Hk) as Hr. cbv zeta in Hr.
  set (r := ticks cfg k _ _) in *.
  destruct Hr as (Hl & _ & _ & (Ix & _) & (Iy & _) & (Iz & _) & (Ie & _)
                  & Cx & Cy & Cz & Ce).
  unfold update_position. rewrite Hl. cbn [live set_live negb].
  cbn [set_current_position current_position tX tY tZ tE endpoint set_live
       x_direction y_direction z_direction e_direction].
  rewrite Hep, Cx, Cy, Cz, Ce.
  repeat match goal with
         | |- context [?a + ?b - ?a] => replace (a + b - a) with b by lia
         end.
  unfold is_i32, moved in *.
  destruct Hs as (_ & _ & Hx & Hy & Hz & He & _).
  repeat split.
  - rewrite DX. destruct (x_direction dda);
      rewrite i32_small by lia; lia.
  - rewrite DY. destruct (y_direction dda);
      rewrite i32_small by lia; lia.
  - rewrite DZ. destruct (z_direction dda);
      rewrite i32_small by lia; lia.
  - intros ->. rewrite DE. destruct (e_direction dda);
      rewrite i32_small by lia; lia.
Qed.

(** X8.  [update_position] can be called again at will: a second call
    changes nothing, and no call touches [startpoint], [move_state],
    [steptimeout], the feed rate of [current_position], or makes any call
    to the pin and timer layer. *)
Theorem update_position_idempotent (dda : DDA) (m : machine) :
  let m' := update_position cfg dda m in
  update_position cfg dda m' = m' /\
  startpoint m' = startpoint m /\
  move_state m' = move_state m /\
  steptimeout m' = steptimeout m /\
  outputs m' = outputs m /\
  tF (current_position m') = tF (current_position m).
Proof.
  cbv zeta. unfold update_position.
  destruct (live dda); cbn; repeat split.
Qed.

End Tracker.

(** ** What a tick does on any record *)

Lemma axis_step_conserves (delta ts counter steps : Z) :
  0 <= steps < 2 ^ 32 ->
  let r := axis_step delta ts counter steps in
  0 <= snd (fst r) <= steps /\
  snd (fst r) = steps - (if snd r then 1 else 0).
Proof.
  intros Hs. cbv zeta. unfold axis_step.
  destruct (Z.eqb_spec steps 0) as [H0|H0]; cbn [fst snd]; [lia|].
  destruct (i32 (counter - delta) <? 0); cbn [fst snd]; [|lia].
  rewrite (u32_small (steps - 1)) by lia. lia.
Qed.

Lemma count_tick_calls_drivers (xp yp zp ep finished : bool) (delay : Z) :
  let calls := tick_calls xp yp zp ep finished delay in
  count pinio.z_enable calls = 0 /\
  count pinio.z_disable calls = (if finished then 1 else 0) /\
  count pinio.unstep calls = 1 /\
  timer_writes calls = [delay].
Proof.
  destruct xp, yp, zp, ep, finished; cbv zeta; repeat split; reflexivity.
Qed.

Section AnyRecord.

Variable cfg : Config.

(** Ticks change a record in its [live] flag at most. *)
Lemma ticks_record (dda : DDA) (m : machine) (k : nat) :
  fst (ticks cfg k dda m) = dda \/
  fst (ticks cfg k dda m) = set_live dda false.
Proof.
  induction k as [|k IH]; [left; reflexivity|].
  rewrite ticks_S, dda_step_parts. cbv zeta. cbn [fst].
  match goal with
  | |- context [if ?b then set_live _ false else _] => destruct b
  end.
  - right. destruct IH as [-> | ->]; reflexivity.
  - exact IH.
Qed.

(** X9.  No axis can be made to step more than its delta.  For any record
    that is no [nullmove] and whose deltas are [uint32_t] values, whatever
    its [total_steps], its flags and its timing fields, and whatever the
    machine it is started on: after any number of ticks, the pulses made on
    an axis and the steps it has left add up to its delta, and the steps
    left are between 0 and the delta, so that the pulses never exceed the
    delta. *)
Theorem pulses_never_exceed_delta (dda : DDA) (m : machine) (k : nat) :
  nullmove dda = false ->
  0 <= x_delta dda < 2 ^ 32 -> 0 <= y_delta dda < 2 ^ 32 ->
  0 <= z_delta dda < 2 ^ 32 -> 0 <= e_delta dda < 2 ^ 32 ->
  let after := snd (ticks cfg k (fst (dda_start dda m))
                                (snd (dda_start dda m))) in
  let made (e : pinio.call) := count e (outputs after) - count e (outputs m) in
  let ms := move_state after in
  (made pinio.x_step + x_steps ms = x_delta dda /\
   0 <= x_steps ms <= x_delta dda) /\
  (made pinio.y_step + y_steps ms = y_delta dda /\
   0 <= y_steps ms <= y_delta dda) /\
  (made pinio.z_step + z_steps ms = z_delta dda /\
   0 <= z_steps ms <= z_delta dda) /\
  (made pinio.e_step + e_steps ms = e_delta dda /\
   0 <= e_steps ms <= e_delta dda).
Proof.
  intros Hn Hx Hy Hz He. cbv zeta.
  induction k as [|k IH].
  - cbn [ticks snd]. unfold dda_start. rewrite Hn.
    cbn [snd emit set_move_state set_steptimeout move_state outputs
         x_steps y_steps z_steps e_steps].
    match goal with
    | |- context [pinio.setTimer ?v] => generalize v; intros delay
    end.
    rewrite !count_app.
    destruct (z_delta dda =? 0);
      repeat match goal with
             | |- context [count ?e (?a :: ?l)] =>
                 change (count e (a :: l)) with 0
             | |- context [count ?e []] => change (count e []) with 0
             end;
      repeat split; lia.
  - destruct IH as ((Cx & Sx) & (Cy & Sy) & (Cz & Sz) & (Ce & Se)).
    rewrite ticks_S, dda_step_parts. cbv zeta.
    cbn [snd move_state outputs x_steps y_steps z_steps e_steps].
    set (r := ticks cfg k _ _) in *.
    assert (Hd : x_delta (fst r) = x_delta dda /\
                 y_delta (fst r) = y_delta dda /\
                 z_delta (fst r) = z_delta dda /\
                 e_delta (fst r) = e_delta dda).
    { destruct (ticks_record (fst (dda_start dda m))
                             (snd (dda_start dda m)) k) as [H|H];
        fold r in H; rewrite H; unfold dda_start; rewrite Hn;
        repeat split. }
    destruct Hd as (-> & -> & -> & ->).
    match goal with
    | |- context [tick_calls _ _ _ _ ?f ?v] =>
        generalize f; intros fin; generalize v; intros delay
    end.
    pose proof (axis_step_conserves (x_delta dda) (total_steps (fst r))
                  (x_counter (move_state (snd r)))
                  (x_steps (move_state (snd r)))) as Ax.
    pose proof (axis_step_conserves (y_delta dda) (total_steps (fst r))
                  (y_counter (move_state (snd r)))
                  (y_steps (move_state (snd r)))) as Ay.
    pose proof (axis_step_conserves (z_delta dda) (total_steps (fst r))
                  (z_counter (move_state (snd r)))
                  (z_steps (move_state (snd r)))) as Az.
    pose proof (axis_step_conserves (e_delta dda) (total_steps (fst r))
                  (e_counter (move_state (snd r)))
                  (e_steps (move_state (snd r)))) as Ae.
    cbv zeta in Ax, Ay, Az, Ae.
    destruct Ax as (Ax1 & Ax2); [lia|]. destruct Ay as (Ay1 & Ay2); [lia|].
    destruct Az as (Az1 & Az2); [lia|]. destruct Ae as (Ae1 & Ae2); [lia|].
    remember (axis_step (x_delta dda) _ _ _) as rx eqn:Erx.
    remember (axis_step (y_delta dda) _ _ _) as ry eqn:Ery.
    remember (axis_step (z_delta dda) _ _ _) as rz eqn:Erz.
    remember (axis_step (e_delta dda) _ _ _) as re eqn:Ere.
    destruct rx as [[xc xs] xp], ry as [[yc ys] yp],
             rz as [[zc zs] zp], re as [[ec es] ep].
    clear Erx Ery Erz Ere. cbn [fst snd] in *.
    destruct (count_tick_calls xp yp zp ep fin delay) as (Tx & Ty & Tz & Te).
    cbv zeta in Tx, Ty, Tz, Te.
    rewrite !count_app, Tx, Ty, Tz, Te.
    repeat split; lia.
Qed.

(** X10.  A tick that finds no steps left on any axis, whatever the record
    and the rest of the machine: it makes no pulse, marks the record as not
    live, calls [z_disable], sets the feed rate of [current_position] to
    that of the end point (and E to 0 unless E_ABSOLUTE is defined), and
    leaves the Bresenham counters and [startpoint] alone. *)
Theorem tick_without_steps_ends_move (dda : DDA) (m : machine) :
  x_steps (move_state m) = 0 -> y_steps (move_state m) = 0 ->
  z_steps (move_state m) = 0 -> e_steps (move_state m) = 0 ->
  let d' := fst (dda_step cfg dda m) in
  let m' := snd (dda_step cfg dda m) in
  live d' = false /\
  pulses (outputs m') = pulses (outputs m) /\
  count pinio.z_disable (outputs m') = count pinio.z_disable (outputs m) + 1 /\
  current_position m' = finish_position cfg dda (current_position m) /\
  startpoint m' = startpoint m /\
  steptimeout m' = steptimeout m /\
  x_counter (move_state m') = x_counter (move_state m) /\
  y_counter (move_state m') = y_counter (move_state m) /\
  z_counter (move_state m') = z_counter (move_state m) /\
  e_counter (move_state m') = e_counter (move_state m) /\
  x_steps (move_state m') = 0 /\ y_steps (move_state m') = 0 /\
  z_steps (move_state m') = 0 /\ e_steps (move_state m') = 0.
Proof.
  intros Hx Hy Hz He. cbv zeta.
  rewrite dda_step_parts. cbv zeta.
  rewrite Hx, Hy, Hz, He, !axis_step_idle.
  cbn [fst snd orb negb andb Z.eqb].
  cbn [current_position startpoint outputs steptimeout move_state live
       set_live x_counter y_counter z_counter e_counter
       x_steps y_steps z_steps e_steps].
  match goal with
  | |- context [tick_calls _ _ _ _ _ ?v] => generalize v; intros delay
  end.
  destruct (count_tick_calls false false false false true delay)
    as (Tx & Ty & Tz & Te).
  destruct (count_tick_calls_drivers false false false false true delay)
    as (_ & Td & _).
  cbv zeta in Tx, Ty, Tz, Te, Td.
  unfold pulses. rewrite !count_app, Tx, Ty, Tz, Te, Td.
  repeat split; lia.
Qed.

End AnyRecord.

(** ** The drivers and the timer over a move *)

Section Drivers.

Variable cfg : Config.

(** The calls of a tick before the last pulse of a move: not those of a
    tick that finds the move done. *)
Lemma stepping_tick_calls (dda : DDA) (m0 : machine) (k : Z)
      (d : DDA) (m : machine) :
  has_steps dda -> 0 <= k < total_steps dda ->
  stepping dda m0 k d m ->
  exists xp yp zp ep delay,
    outputs (snd (dda_step cfg d m))
    = outputs m ++ tick_calls xp yp zp ep false delay.
Proof.
  intros (Hn & Hts & Hx & Hy & Hz & He & Hmax) Hk.
  intros (Hd & _ & _ & Ix & Iy & Iz & Ie & _).
  subst d. cbv zeta in *.
  rewrite dda_step_parts. cbv zeta.
  cbn [x_delta y_delta z_delta e_delta total_steps set_live snd outputs].
  destruct (axis_step_inv _ _ _ _ _ Hts Hx Hk Ix) as (_ & _ & Mx).
  destruct (axis_step_inv _ _ _ _ _ Hts Hy Hk Iy) as (_ & _ & My).
  destruct (axis_step_inv _ _ _ _ _ Hts Hz Hk Iz) as (_ & _ & Mz).
  destruct (axis_step_inv _ _ _ _ _ Hts He Hk Ie) as (_ & _ & Me).
  remember (axis_step (x_delta dda) _ _ _) as rx eqn:Erx.
  remember (axis_step (y_delta dda) _ _ _) as ry eqn:Ery.
  remember (axis_step (z_delta dda) _ _ _) as rz eqn:Erz.
  remember (axis_step (e_delta dda) _ _ _) as re eqn:Ere.
  destruct rx as [[xc xs] xp], ry as [[yc ys] yp],
           rz as [[zc zs] zp], re as [[ec es] ep].
  clear Erx Ery Erz Ere. cbn [fst snd] in *.
  assert (Hdid : xp || yp || zp || ep = true).
  { destruct xp, yp, zp, ep; try reflexivity.
    exfalso. intuition discriminate. }
  rewrite Hdid. cbn [negb andb].
  eexists _, _, _, _, _. reflexivity.
Qed.

Lemma stepping_finish_calls (dda : DDA) (m0 : machine) (d : DDA) (m : machine) :
  has_steps dda ->
  stepping dda m0 (total_steps dda) d m ->
  exists delay,
    outputs (snd (dda_step cfg d m))
    = outputs m ++ tick_calls false false false false true delay.
Proof.
  intros Hs Hr.
  destruct (stepping_finish cfg dda m0 d m Hs Hr) as (Sx & Sy & Sz & Se & _).
  rewrite dda_step_parts. cbv zeta.
  rewrite Sx, Sy, Sz, Se, !axis_step_idle.
  cbn [fst snd orb negb andb Z.eqb outputs].
  eexists. reflexivity.
Qed.

Lemma calls_ticks (dda : DDA) (m : machine) (k : nat) :
  has_steps dda -> Z.of_nat k <= total_steps dda ->
  let after := snd (ticks cfg k (fst (dda_start dda m))
                                (snd (dda_start dda m))) in
  count pinio.z_enable (outputs after)
  = count pinio.z_enable (outputs m) + (if z_delta dda =? 0 then 0 else 1) /\
  count pinio.z_disable (outputs after) = count pinio.z_disable (outputs m) /\
  count pinio.unstep (outputs after)
  = count pinio.unstep (outputs m) + Z.of_nat k /\
  Z.of_nat (length (timer_writes (outputs after)))
  = Z.of_nat (length (timer_writes (outputs m))) + 1 + Z.of_nat k.
Proof.
  intros Hs. cbv zeta. induction k as [|k IH]; intros Hk.
  - destruct Hs as (Hn & _).
    cbn [ticks snd]. unfold dda_start. rewrite Hn.
    cbn [snd emit set_move_state set_steptimeout outputs].
    match goal with
    | |- context [pinio.setTimer ?v] => generalize v; intros delay
    end.
    rewrite !timer_writes_app, !length_app, !count_app.
    destruct (z_delta dda =? 0);
      repeat match goal with
             | |- context [count ?e (?a :: ?l)] =>
                 let v := eval vm_compute in (count e (a :: l)) in
                 change (count e (a :: l)) with v
             | |- context [count ?e []] => change (count e []) with 0
             end;
      cbn [timer_writes flat_map app length]; repeat split; lia.
  - assert (Hk' : Z.of_nat k <= total_steps dda) by lia.
    destruct (IH Hk') as (Ce & Cd & Cu & Ct).
    pose proof (stepping_ticks cfg dda m k Hs Hk') as Hr. cbv zeta in Hr.
    rewrite ticks_S.
    destruct (stepping_tick_calls dda m (Z.of_nat k) _ _ Hs
                ltac:(destruct Hs as (_ & ? & _); lia) Hr)
      as (xp & yp & zp & ep & delay & ->).
    destruct (count_tick_calls_drivers xp yp zp ep false delay)
      as (Te & Td & Tu & Tt).
    cbv zeta in Te, Td, Tu, Tt.
    rewrite timer_writes_app, length_app, !count_app, Te, Td, Tu, Tt.
    cbn [length]. repeat split; lia.
Qed.

(** X11.  The Z driver and the timer over a planned move (fewer than 2^30
    steps), started on any machine.  [z_enable] is called once, at the
    start, if the move has steps in Z, and not at all if it has none.
    Through the [total_steps] ticks that make pulses [z_disable] is never
    called; the tick after them calls it once.  The timer is set once at
    the start and once by every tick, and every tick ends its pulses with
    one [unstep]. *)
Theorem drivers_and_timer_over_a_move
        (q : DDA) (target : TARGET) (m0 : machine) (dda : DDA) (m0' : machine) :
  dda_create cfg q target m0 = Ok (dda, m0') ->
  0 < total_steps dda < 2 ^ 30 ->
  forall (m : machine) (k : nat),
    Z.of_nat k <= total_steps dda ->
    let run j := snd (ticks cfg j (fst (dda_start dda m))
                                  (snd (dda_start dda m))) in
    let made (e : pinio.call) (j : nat) :=
      count e (outputs (run j)) - count e (outputs m) in
    let timers (j : nat) :=
      Z.of_nat (length (timer_writes (outputs (run j))))
      - Z.of_nat (length (timer_writes (outputs m))) in
    made pinio.z_enable k = (if z_delta dda =? 0 then 0 else 1) /\
    made pinio.z_disable k = 0 /\
    made pinio.unstep k = Z.of_nat k /\
    timers k = 1 + Z.of_nat k /\
    (Z.of_nat k = total_steps dda ->
     made pinio.z_enable (S k) = (if z_delta dda =? 0 then 0 else 1) /\
     made pinio.z_disable (S k) = 1 /\
     made pinio.unstep (S k) = Z.of_nat (S k) /\
     timers (S k) = 1 + Z.of_nat (S k)).
Proof.
  intros Hc Hts m k Hk. cbv zeta.
  pose proof (planned_has_steps cfg _ _ _ _ _ Hc Hts) as Hs.
  destruct (calls_ticks dda m k Hs Hk) as (Ce & Cd & Cu & Ct).
  repeat (split; [lia|]).
  intros Hlast.
  pose proof (stepping_ticks cfg dda m k Hs Hk) as Hr. cbv zeta in Hr.
  rewrite Hlast in Hr. rewrite ticks_S.
  destruct (stepping_finish_calls dda m _ _ Hs Hr) as (delay & ->).
  destruct (count_tick_calls_drivers false false false false true delay)
    as (Te & Td & Tu & Tt).
  cbv zeta in Te, Td, Tu, Tt.
  rewrite timer_writes_app, length_app, !count_app, Te, Td, Tu, Tt.
  cbn [length]. repeat split; lia.
Qed.

End Drivers.

(** ** The ramp state on every machine that can be reached *)

Section Reach.

Variable cfg : Config.

Lemma dda_create_keeps_move_state
      (q : DDA) (target : TARGET) (m : machine) (dda : DDA) (m' : machine) :
  dda_create cfg q target m = Ok (dda, m') -> move_state m' = move_state m.
Proof.
  intros Hc. apply dda_create_inv in Hc. cbv zeta in Hc.
  destruct Hc as [_ [(_ & _ & ->) | (_ & m1 & Ht & ->)]]; [reflexivity|].
  apply dda_create_timing_machine in Ht. subst m1. reflexivity.
Qed.

Lemma update_position_keeps_move_state (dda : DDA) (m : machine) :
  move_state (update_position cfg dda m) = move_state m.
Proof. unfold update_position. destruct (live dda); reflexivity. Qed.

Lemma reachable_parity (m : machine) :
  reachable cfg m -> n (move_state m) mod 4 = 1.
Proof.
  induction 1 as [feed | q target m dda m' _ IH Hc | dda m _ IH
                  | dda m _ IH | dda m _ IH].
  - apply dda_init_parity.
  - rewrite (dda_create_keeps_move_state _ _ _ _ _ Hc). exact IH.
  - apply dda_start_parity. exact IH.
  - apply dda_step_parity. exact IH.
  - rewrite update_position_keeps_move_state. exact IH.
Qed.

(** X12.  On every machine reached from [dda_init] by planning, starting,
    stepping and refreshing, in any order and on any records,
    [move_state.n] is congruent to 1 modulo 4.  So the [n] by which line 585
    divides on the next tick is never 0, nor the -1 that would overflow the
    division. *)
Theorem ramp_divisor_never_zero (m : machine) :
  reachable cfg m ->
  n (move_state m) mod 4 = 1 /\
  forall dda : DDA,
    let n' := fst (fst (ramp_step dda (move_state m))) in
    n' mod 4 = 1 /\ n' <> 0 /\ n' <> -1.
Proof.
  intros Hr. pose proof (reachable_parity m Hr) as Hp.
  split; [exact Hp|]. intros dda. cbv zeta.
  pose proof (ramp_step_parity dda (move_state m) Hp) as Hp'.
  split; [exact Hp'|].
  split; intros E0; rewrite E0 in Hp'; discriminate.
Qed.

End Reach.

(** ** The ramp over a whole move *)

Lemma ramp_step_set_live (dda : DDA) (b : bool) (ms : MOVE_STATE) :
  ramp_step (set_live dda b) ms = ramp_step dda ms.
Proof. reflexivity. Qed.

Lemma ramp_period_slowing_down (c n : Z) :
  0 <= c < 2 ^ 30 -> n <= -3 -> c <= ramp_period c n.
Proof.
  intros Hc Hn. rewrite ramp_period_small by exact Hc.
  replace n with (- (- n)) by lia.
  rewrite Z.quot_opp_r by lia.
  rewrite Z.quot_div_nonneg by lia.
  assert (H0 : 0 <= c * 2 / - n) by (apply Z.div_pos; lia).
  assert (H1 : c * 2 / - n <= c) by (apply Z.div_le_upper_bound; nia).
  rewrite u32_small by lia. lia.
Qed.

(** One tick of the ramp computation, [k] ticks into a move. *)
Lemma ramp_step_inv (dda : DDA) (n0 k : Z) (ms ms' : MOVE_STATE) :
  ramps_fit dda -> 0 < total_steps dda < 2 ^ 28 -> Z.abs n0 < 2 ^ 29 ->
  0 <= k <= total_steps dda ->
  ramp_inv dda n0 k ms ->
  n ms' = fst (fst (ramp_step dda ms)) ->
  c ms' = snd (fst (ramp_step dda ms)) ->
  step_no ms' = snd (ramp_step dda ms) ->
  ramp_inv dda n0 (k + 1) ms' /\
  (0 <= c ms < 2 ^ 30 ->
   (k < rampup_steps dda -> c ms' <= c ms) /\
   (rampup_steps dda <= k <= rampdown_steps dda -> c ms' = c ms) /\
   (rampdown_steps dda < k -> c ms <= c ms')).
Proof.
  intros (Hru0 & Hru2 & Hrd) Hts Hn0 Hk (Hno & Hmod & Habs & Hph) Hn' Hc' Hs'.
  pose proof (ramp_step_parity dda ms Hmod) as Hpar. rewrite <- Hn' in Hpar.
  revert Hn' Hc' Hs'. unfold ramp_step, ramp_direction. rewrite Hno.
  assert (Hodd : n ms <= -3 \/ 1 <= n ms).
  { assert (H := Z.div_mod (n ms) 4). lia. }
  destruct (Z.ltb_spec k (rampup_steps dda)) as [Hup|Hup].
  - (* on the way up *)
    assert (Hpos : 0 < rampup_steps dda) by lia.
    destruct (Hph Hpos) as (Hlow & _).
    destruct (Z.ltb_spec (n ms) 0) as [Hneg|Hneg]; cbn [fst snd];
      intros Hn' Hc' Hs'.
    + assert (Hk0 : k = 0) by lia. subst k.
      rewrite (i32_small (-2 - n ms)) in Hn', Hc' by lia.
      rewrite (i32_small (-2 - n ms + 4)) in Hn', Hc' by lia.
      rewrite u32_small in Hs' by lia.
      split.
      * unfold ramp_inv. repeat split; try lia.
      * intros Hc. rewrite ramp_period_speeding_up in Hc' by lia.
        assert (0 <= Z.quot (c ms * 2) (-2 - n ms + 4))
          by (apply Z.quot_pos; lia).
        repeat split; lia.
    + rewrite (i32_small (n ms + 4)) in Hn', Hc' by lia.
      rewrite u32_small in Hs' by lia.
      split.
      * unfold ramp_inv. repeat split; try lia.
      * intros Hc. rewrite ramp_period_speeding_up in Hc' by lia.
        assert (0 <= Z.quot (c ms * 2) (n ms + 4))
          by (apply Z.quot_pos; lia).
        repeat split; lia.
  - destruct (Z.gtb_spec k (rampdown_steps dda)) as [Hdn|Hdn].
    + (* on the way down *)
      assert (Hpos : 0 < rampup_steps dda) by lia.
      destruct (Hph Hpos) as (Hlow & Hhigh).
      destruct (Z.gtb_spec (n ms) 0) as [Hgt|Hle]; cbn [fst snd];
        intros Hn' Hc' Hs'.
      * assert (Hfirst : k = rampdown_steps dda + 1) by lia.
        rewrite (i32_small (-2 - n ms)) in Hn', Hc' by lia.
        rewrite (i32_small (-2 - n ms + 4)) in Hn', Hc' by lia.
        rewrite u32_small in Hs' by lia.
        split.
        -- unfold ramp_inv. repeat split; try lia.
        -- intros Hc.
           assert (c ms <= ramp_period (c ms) (-2 - n ms + 4))
             by (apply ramp_period_slowing_down; lia).
           repeat split; lia.
      * rewrite (i32_small (n ms + 4)) in Hn', Hc' by lia.
        rewrite u32_small in Hs' by lia.
        split.
        -- unfold ramp_inv. repeat split; try lia.
        -- intros Hc.
           assert (c ms <= ramp_period (c ms) (n ms + 4))
             by (apply ramp_period_slowing_down; lia).
           repeat split; lia.
    + (* cruising *)
      cbn [fst snd]. intros Hn' Hc' Hs'.
      rewrite u32_small in Hs' by lia.
      split.
      * unfold ramp_inv. repeat split; try lia.
      * intros _. repeat split; lia.
Qed.

Section Ramp.

Variable cfg : Config.

(** The ramps of a planned move fit, as long as the product on line 369
    stays within 32 bits. *)
Lemma planned_ramps_fit
      (q : DDA) (target : TARGET) (m : machine) (dda : DDA) (m' : machine) :
  dda_create cfg q target m = Ok (dda, m') ->
  0 < total_steps dda ->
  12500 * total_steps dda < 2 ^ 32 ->
  ramps_fit dda.
Proof.
  intros Hc Hpos Hts.
  pose proof (dda_create_geometry cfg _ _ _ _ _ Hc) as Hg. cbv zeta in Hg.
  destruct Hg as (_ & _ & _ & _ & _ & _ & _ & _ & _ & _ & _ & Hsteps).
  set (g := dda_create_deltas q target m) in *.
  apply dda_create_inv in Hc. cbv zeta in Hc. fold g in Hc.
  destruct Hc as [_ [(H0 & _) | (_ & m1 & Ht & _)]]; [lia|].
  pose proof (dda_create_timing_ramps cfg _ _ _ _ _ Ht) as Hq.
  destruct Hq as (xb & d0 & dv & Hxb & (Hdv & Hdv0) & Hd0 & ->).
  rewrite Hsteps in Hts, Hpos.
  destruct (accel_steps_divisor_small (total_steps g) Hpos Hts) as [_ Hdiv].
  rewrite <- Hdv in Hdiv.
  assert (Hx : 0 <= xb / dv < 2 ^ 31).
  { split; [apply Z.div_pos; lia|].
    apply Z.div_lt_upper_bound; lia. }
  assert (Hd0r : 0 <= total_steps d0 < 2 ^ 32) by lia.
  destruct (clip_ramps_spec d0 (xb / dv) Hx Hd0r)
    as (_ & Hru0 & H2 & Hrd & Hts').
  unfold ramps_fit. rewrite Hts'. repeat split; assumption.
Qed.

(** The ramp state through the ticks of a move. *)
Lemma ramp_ticks (dda : DDA) (m : machine) (k : nat) :
  has_steps dda -> ramps_fit dda -> total_steps dda < 2 ^ 28 ->
  n (move_state m) mod 4 = 1 -> Z.abs (n (move_state m)) < 2 ^ 29 ->
  Z.of_nat k <= total_steps dda ->
  ramp_inv dda (n (move_state m)) (Z.of_nat k)
           (move_state (snd (ticks cfg k (fst (dda_start dda m))
                                         (snd (dda_start dda m))))).
Proof.
  intros Hs Hfit Hts Hmod Habs.
  induction k as [|k IH]; intros Hk.
  - destruct Hs as (Hn & _).
    cbn [ticks snd]. unfold dda_start. rewrite Hn.
    cbn [snd emit set_move_state move_state].
    unfold ramp_inv. cbn [step_no n].
    change (move_state (set_steptimeout m 0)) with (move_state m).
    split; [reflexivity|split; [exact Hmod|split; [lia|]]].
    unfold ramps_fit in Hfit. intros _. split; intros ?; lia.
  - assert (Hk' : Z.of_nat k <= total_steps dda) by lia.
    pose proof (stepping_ticks cfg dda m k Hs Hk') as Hr. cbv zeta in Hr.
    destruct Hr as (Hd & _).
    rewrite Nat2Z.inj_succ. unfold Z.succ.
    refine (proj1 (ramp_step_inv dda _ (Z.of_nat k) _ _ Hfit _ Habs _
                                 (IH Hk') _ _ _)).
    + destruct Hs as (_ & ? & _). lia.
    + lia.
    + rewrite ticks_S, Hd, dda_step_parts. reflexivity.
    + rewrite ticks_S, Hd, dda_step_parts. reflexivity.
    + rewrite ticks_S, Hd, dda_step_parts. reflexivity.
Qed.

(** X13.  The step period over a planned move in ramping mode.  For a move
    with steps whose [total_steps] keeps line 369 within 32 bits, started
    on a machine with [n] congruent to 1 modulo 4 and below 2^29 in size:
    [step_no] counts the ticks, and a tick that starts with a period below
    2^30 leaves it no longer while [step_no < rampup_steps], leaves it as it
    is from [rampup_steps] to [rampdown_steps], and leaves it no shorter
    after [rampdown_steps]. *)
Theorem period_falls_holds_and_rises
        (q : DDA) (target : TARGET) (m0 : machine) (dda : DDA) (m0' : machine) :
  dda_create cfg q target m0 = Ok (dda, m0') ->
  0 < total_steps dda ->
  12500 * total_steps dda < 2 ^ 32 ->
  forall m : machine,
    n (move_state m) mod 4 = 1 ->
    Z.abs (n (move_state m)) < 2 ^ 29 ->
    forall k : nat,
      Z.of_nat k <= total_steps dda ->
      let state j := move_state (snd (ticks cfg j (fst (dda_start dda m))
                                                  (snd (dda_start dda m)))) in
      step_no (state k) = Z.of_nat k /\
      (0 <= c (state k) < 2 ^ 30 ->
       (Z.of_nat k < rampup_steps dda -> c (state (S k)) <= c (state k)) /\
       (rampup_steps dda <= Z.of_nat k <= rampdown_steps dda ->
        c (state (S k)) = c (state k)) /\
       (rampdown_steps dda < Z.of_nat k -> c (state k) <= c (state (S k)))).
Proof.
  intros Hc Hpos Hts m Hmod Habs k Hk. cbv zeta.
  assert (Hts30 : 0 < total_steps dda < 2 ^ 30) by lia.
  pose proof (planned_has_steps cfg _ _ _ _ _ Hc Hts30) as Hs.
  pose proof (planned_ramps_fit _ _ _ _ _ Hc Hpos Hts) as Hfit.
  assert (Hts28 : total_steps dda < 2 ^ 28) by lia.
  pose proof (ramp_ticks dda m k Hs Hfit Hts28 Hmod Habs Hk) as Hinv.
  split; [apply Hinv|].
  pose proof (stepping_ticks cfg dda m k Hs Hk) as Hr. cbv zeta in Hr.
  destruct Hr as (Hd & _).
  refine (proj2 (ramp_step_inv dda _ (Z.of_nat k) _ _ Hfit _ Habs _
                               Hinv _ _ _)).
  - lia.
  - lia.
  - rewrite ticks_S, Hd, dda_step_parts. reflexivity.
  - rewrite ticks_S, Hd, dda_step_parts. reflexivity.
  - rewrite ticks_S, Hd, dda_step_parts. reflexivity.
Qed.

End Ramp.

(** ** The period in taper mode *)

(** X14.  The block of [dda_step] for ACCELERATION_REPRAP never overshoots.
    With [c] and [end_c] in [uint32_t] and [n] in [int32_t], the new values
    are in these types again, and the new period lies between the old one
    and [end_c].  With [accel] it is [end_c] itself and [n] is untouched, or
    else [n] went up by 4 and the period is still on the side of [end_c] it
    was on; a period that is at [end_c] stays there; without [accel] nothing
    changes; and neither of the two divisions divides by zero. *)
Theorem taper_never_overshoots (accel : bool) (c end_c n : Z) :
  is_u32 c -> is_u32 end_c -> is_i32 n ->
  let c' := fst (taper_period accel c end_c n) in
  let n' := snd (taper_period accel c end_c n) in
  (is_u32 c' /\ is_i32 n') /\
  Z.min c end_c <= c' <= Z.max c end_c /\
  (accel = true ->
   (c' = end_c /\ n' = n) \/
   (c' <> end_c /\ n' = i32 (n + 4) /\ (end_c < c <-> end_c < c'))) /\
  (c = end_c -> c' = c /\ n' = n) /\
  (accel = false -> c' = c /\ n' = n) /\
  (0 < n -> u32 n <> 0) /\
  (n < 0 -> u32 (i32 (- n)) <> 0).
Proof.
  unfold is_u32, is_i32. intros Hc He Hn. cbv zeta. unfold taper_period.
  assert (Hn4 := i32_range (n + 4)).
  assert (Hup := u32_range (c - u32 (c * 2) / u32 n)).
  assert (Hdn := u32_range (c + u32 (c * 2) / u32 (i32 (- n)))).
  split; [|split; [|split; [|split; [|split; [|split]]]]].
  - destruct accel; cbn [fst snd]; [|lia].
    repeat match goal with
           | |- context [if ?b then _ else _] =>
               let E := fresh "E" in destruct b eqn:E; cbn [fst snd]
           end; lia.
  - destruct accel; cbn [fst snd]; [|lia].
    repeat match goal with
           | |- context [if ?b then _ else _] =>
               let E := fresh "E" in destruct b eqn:E; cbn [fst snd]
           end;
      repeat match goal with
             | H : _ && _ = true |- _ => apply andb_true_iff in H; destruct H
             end; lia.
  - intros ->.
    repeat match goal with
           | |- context [if ?b then _ else _] =>
               let E := fresh "E" in destruct b eqn:E; cbn [fst snd]
           end;
      repeat match goal with
             | H : _ && _ = true |- _ => apply andb_true_iff in H; destruct H
             | H : negb _ = false |- _ => apply negb_false_iff in H
             end;
      first [ left; split; [lia|reflexivity]
            | right; repeat split; try reflexivity; lia ].
  - intros ->. destruct accel; cbn [fst snd]; [|split; reflexivity].
    rewrite Z.gtb_ltb, !Z.ltb_irrefl, Z.eqb_refl. cbn. split; reflexivity.
  - intros ->. cbn. split; reflexivity.
  - intros Hp. rewrite u32_small; lia.
  - intros Hneg. unfold u32, i32.
    destruct (Z.eq_dec n (- 2 ^ 31)) as [->|Hne].
    + vm_compute. discriminate.
    + rewrite (Z.mod_small (- n + 2 ^ 31)) by lia.
      rewrite Z.mod_small; lia.
Qed.

(** ** The hypotheses of the further properties, met by the sample moves *)

Lemma sample_displacement_in_range :
  displacement_in_range (startpoint (dda_init 300)) sample_target.
Proof. unfold displacement_in_range, is_i32. cbn. lia. Qed.

Lemma origin_in_range : TARGET_in_range (startpoint (dda_init 300)).
Proof. unfold TARGET_in_range, is_i32, is_u32. cbn. lia. Qed.

Lemma deltas_and_directions_give_target_witness :
  tX sample_target
  = moved (x_direction sample_move) (tX (startpoint (dda_init 300)))
          (x_delta sample_move) /\
  tY sample_target
  = moved (y_direction sample_move) (tY (startpoint (dda_init 300)))
          (y_delta sample_move) /\
  tZ sample_target
  = moved (z_direction sample_move) (tZ (startpoint (dda_init 300)))
          (z_delta sample_move) /\
  tE sample_target
  = moved (e_direction sample_move) (tE (startpoint (dda_init 300)))
          (e_delta sample_move).
Proof.
  exact (deltas_and_directions_give_target sample_config blank_dda
           sample_target (dda_init 300) sample_move (planned sample_target)
           sample_plan sample_displacement_in_range).
Defined.

Lemma dda_create_frame_witness :
  current_position (planned sample_target) = current_position (dda_init 300) /\
  move_state (planned sample_target) = move_state (dda_init 300) /\
  endpoint sample_move = sample_target /\ live sample_move = false.
Proof.
  destruct (dda_create_frame sample_config blank_dda sample_target
              (dda_init 300) sample_move (planned sample_target) sample_plan)
    as (Hcp & Hms & He & Hl & _).
  repeat split; assumption.
Defined.

Lemma second_move_starts_at_first_target_witness :
  exists d2 m2,
    dda_create sample_config blank_dda one_step_target (planned sample_target)
    = Ok (d2, m2) /\
    x_delta d2 = Z.abs (i32 (1 - 10)) /\
    y_delta d2 = Z.abs (i32 (0 - 5)) /\
    x_direction d2 = (1 >=? 10) /\
    y_direction d2 = (0 >=? 5).
Proof.
  destruct (dda_create sample_config blank_dda one_step_target
                       (planned sample_target)) as [[d2 m2]|d] eqn:H2;
    [|vm_compute in H2; discriminate H2].
  exists d2, m2. split; [reflexivity|].
  destruct (second_move_starts_at_first_target sample_config blank_dda
              blank_dda sample_target one_step_target (dda_init 300)
              sample_move d2 (planned sample_target) m2 sample_plan H2)
    as (Hx & Hy & _ & _ & Hdx & Hdy & _).
  repeat split; assumption.
Defined.

Lemma same_target_again_witness :
  x_delta (dda_create_deltas blank_dda sample_target (planned sample_target))
  = 0 /\
  y_delta (dda_create_deltas blank_dda sample_target (planned sample_target))
  = 0 /\
  z_delta (dda_create_deltas blank_dda sample_target (planned sample_target))
  = 0 /\
  total_steps (dda_create_deltas blank_dda sample_target
                                 (planned sample_target))
  = (if E_ABSOLUTE sample_config then 0 else Z.abs (i32 (tE sample_target))).
Proof.
  destruct (same_target_again sample_config blank_dda blank_dda sample_target
              (dda_init 300) sample_move (planned sample_target) sample_plan)
    as (Hx & Hy & Hz & _ & Hts & _).
  repeat split; assumption.
Defined.

Lemma c_limit_respects_axis_speeds_witness :
  Z.shiftr (c_min sample_move) 8
  = c_limit sample_config sample_move sample_target /\
  MIN_CLOCKS_PER_STEP sample_config X <= Z.shiftr (c_min sample_move) 8.
Proof.
  destruct (c_limit_respects_axis_speeds sample_config blank_dda sample_target
              (dda_init 300) sample_move (planned sample_target)
              sample_plan eq_refl)
    as (Hfloor & Hall); [by_computation|].
  split; [exact Hfloor|].
  destruct (Hall X) as (_ & Hmax); [by_computation|].
  apply Hmax. reflexivity.
Defined.

Lemma pulses_follow_the_line_witness :
  let made (e : pinio.call) :=
    count e (outputs (snd (started sample_move sample_target 5)))
    - count e (outputs (planned sample_target)) in
  5 * 10 <= 10 * made pinio.x_step < 5 * 10 + 10 + 10 / 2 /\
  5 * 5 <= 10 * made pinio.y_step < 5 * 5 + 10 + 10 / 2 /\
  5 * 0 <= 10 * made pinio.z_step < 5 * 0 + 10 + 10 / 2 /\
  5 * 3 <= 10 * made pinio.e_step < 5 * 3 + 10 + 10 / 2.
Proof.
  apply (pulses_follow_the_line sample_config blank_dda sample_target
           (dda_init 300) sample_move (planned sample_target) sample_plan
           sample_move_in_range (planned sample_target) 5%nat).
  by_computation.
Defined.

Lemma update_position_counts_pulses_witness :
  let r := started sample_move sample_target 7 in
  let cp := current_position (update_position sample_config (fst r) (snd r)) in
  let made (e : pinio.call) :=
    count e (outputs (snd r)) - count e (outputs (planned sample_target)) in
  tX cp = moved true 0 (made pinio.x_step) /\
  tY cp = moved true 0 (made pinio.y_step) /\
  tZ cp = moved true 0 (made pinio.z_step).
Proof.
  cbv zeta.
  destruct (update_position_counts_pulses sample_config blank_dda
              sample_target (dda_init 300) sample_move
              (planned sample_target) sample_plan sample_move_in_range
              origin_in_range sample_target_in_range
              sample_displacement_in_range (planned sample_target) 7%nat)
    as (Hx & Hy & Hz & _); [by_computation|].
  repeat split; assumption.
Defined.

Lemma pulses_never_exceed_delta_witness :
  let after := snd (started sample_move sample_target 7) in
  count pinio.x_step (outputs after)
  - count pinio.x_step (outputs (planned sample_target))
  + x_steps (move_state after) = 10 /\
  0 <= x_steps (move_state after) <= 10.
Proof.
  cbv zeta.
  destruct (pulses_never_exceed_delta sample_config sample_move
              (planned sample_target) 7%nat)
    as (Hx & _);
    [reflexivity | by_computation | by_computation | by_computation
     | by_computation |].
  exact Hx.
Defined.

Lemma tick_without_steps_ends_move_witness :
  live (fst (dda_step sample_config sample_move (dda_init 300))) = false /\
  pulses (outputs (snd (dda_step sample_config sample_move (dda_init 300))))
  = pulses (outputs (dda_init 300)).
Proof.
  destruct (tick_without_steps_ends_move sample_config sample_move
              (dda_init 300) eq_refl eq_refl eq_refl eq_refl)
    as (Hl & Hp & _).
  split; assumption.
Defined.

Lemma drivers_and_timer_over_a_move_witness :
  count pinio.unstep (outputs (snd (started sample_move sample_target 10)))
  - count pinio.unstep (outputs (planned sample_target)) = 10 /\
  count pinio.z_disable (outputs (snd (started sample_move sample_target 11)))
  - count pinio.z_disable (outputs (planned sample_target)) = 1.
Proof.
  destruct (drivers_and_timer_over_a_move sample_config blank_dda
              sample_target (dda_init 300) sample_move
              (planned sample_target) sample_plan sample_move_in_range
              (planned sample_target) 10%nat)
    as (_ & _ & Hu & _ & Hend); [by_computation|].
  destruct Hend as (_ & Hz & _); [reflexivity|].
  split; assumption.
Defined.

Lemma ramp_divisor_never_zero_witness :
  let m := snd (dda_step sample_config sample_move
                         (snd (dda_start sample_move
                                         (planned sample_target)))) in
  n (move_state m) mod 4 = 1 /\
  fst (fst (ramp_step sample_move (move_state m))) <> 0.
Proof.
  cbv zeta.
  destruct (ramp_divisor_never_zero sample_config _
              (reach_step sample_config sample_move _
                 (reach_start sample_config sample_move _
                    (reach_create sample_config blank_dda sample_target
                       (dda_init 300) sample_move (planned sample_target)
                       (reach_init sample_config 300) sample_plan))))
    as (Hn & Hall).
  split; [exact Hn|].
  destruct (Hall sample_move) as (_ & H0 & _). exact H0.
Defined.

Lemma period_falls_holds_and_rises_witness :
  step_no (move_state (snd (started sample_move sample_target 2))) = 2 /\
  c (move_state (snd (started sample_move sample_target 3)))
  <= c (move_state (snd (started sample_move sample_target 2))) /\
  c (move_state (snd (started sample_move sample_target 8)))
  <= c (move_state (snd (started sample_move sample_target 9))).
Proof.
  destruct (period_falls_holds_and_rises sample_config blank_dda sample_target
              (dda_init 300) sample_move (planned sample_target) sample_plan
              ltac:(by_computation) ltac:(by_computation)
              (planned sample_target) eq_refl ltac:(by_computation)
              2%nat ltac:(by_computation))
    as (Hno & Hc).
  destruct Hc as (Hup & _ & _); [by_computation|].
  destruct (period_falls_holds_and_rises sample_config blank_dda sample_target
              (dda_init 300) sample_move (planned sample_target) sample_plan
              ltac:(by_computation) ltac:(by_computation)
              (planned sample_target) eq_refl ltac:(by_computation)
              8%nat ltac:(by_computation))
    as (_ & Hc).
  destruct Hc as (_ & _ & Hdown); [by_computation|].
  split; [exact Hno|]. split.
  - apply Hup. by_computation.
  - apply Hdown. by_computation.
Defined.

Lemma taper_never_overshoots_witness :
  taper_period true 1000 500 5 = (600, 9) /\
  Z.min 1000 500 <= fst (taper_period true 1000 500 5) <= Z.max 1000 500 /\
  u32 5 <> 0.
Proof.
  destruct (taper_never_overshoots true 1000 500 5)
    as (_ & Hb & _ & _ & _ & Hd & _);
    [by_computation | by_computation | by_computation |].
  split; [reflexivity|]. split; [exact Hb|]. apply Hd. reflexivity.
Defined.
